(** * synology_api.core_certificate: the Certificate wrapper, embedded and verified

    A shallow embedding of [src/synology_api/core_certificate.py].

    - Python [str] values are Rocq strings, one character per code point
      (code points below 256); [bytes] are lists of bytes.
    - Python dictionaries whose insertion order reaches the wire (request
      parameters, form fields, multipart parts, JSON objects) are
      association lists in insertion order; the endpoint tables of the
      session, which are only looked up, are finite maps.
    - Every method runs in a small monad that threads the trace of what the
      call did to the outside (requests sent, files opened and closed, lines
      printed) and ends in a returned value or a raised exception.
    - The collaborators that are not part of this module ([request_data] of
      the base class, [requests], the file system, [os.path.abspath]) are
      the fields of a [world] the methods are run against. *)

From Stdlib Require Import ZArith String Ascii List Bool Lia DecimalString.
From stdpp Require Import base gmap strings list.

#[local] Set Warnings "-register-all".

Local Open Scope string_scope.
Local Open Scope list_scope.
Local Open Scope Z_scope.

(** * Python values *)

Module Py.

(** The exceptions the module can run into. *)
Inductive exn :=
| KeyError (key : string)
| TypeError (what : string)
| FileNotFoundError (path : string)
| IsADirectoryError (path : string)
| NotADirectoryError (path : string)
| PermissionError (path : string)
| OSError (what : string)
| JSONDecodeError
| RequestException (what : string).

Inductive outcome (A : Type) :=
| Return (a : A)
| Raise (e : exn).
Arguments Return {A} a.
Arguments Raise {A} e.

(** Values that [json.dumps] takes and [Response.json] gives back.
    Numbers are integers: the module builds no float. *)
Inductive jval :=
| JNull
| JBool (b : bool)
| JInt (z : Z)
| JStr (s : string)
| JArr (items : list jval)
| JObj (members : list (string * jval)).

(** [bool(v)] *)
Definition truthy (v : jval) : bool :=
  match v with
  | JNull => false
  | JBool b => b
  | JInt z => negb (z =? 0)
  | JStr s => negb (String.eqb s "")
  | JArr items => match items with [] => false | _ => true end
  | JObj members => match members with [] => false | _ => true end
  end.

(** [bool(s)] for a string, and for an optional string ([None] is false). *)
Definition str_truthy (s : string) : bool := negb (String.eqb s "").

Definition opt_truthy (o : option string) : bool :=
  match o with
  | Some s => str_truthy s
  | None => false
  end.

(** [o or ''] *)
Definition or_empty (o : option string) : string :=
  match o with
  | Some s => if str_truthy s then s else ""
  | None => ""
  end.

(** [str(n)] for an [int]: also what [%s] and an f-string make of it. *)
Definition str_of_int (z : Z) : string := NilZero.string_of_int (Z.to_int z).

(** ** Dictionaries in insertion order *)

Fixpoint dict_get {V : Type} (d : list (string * V)) (k : string) : option V :=
  match d with
  | [] => None
  | (k', v) :: rest => if String.eqb k' k then Some v else dict_get rest k
  end.

(** [d[k] = v]: an existing key keeps its place, a new one goes last. *)
Fixpoint dict_set {V : Type} (d : list (string * V)) (k : string) (v : V)
  : list (string * V) :=
  match d with
  | [] => [(k, v)]
  | (k', v') :: rest =>
      if String.eqb k' k then (k', v) :: rest else (k', v') :: dict_set rest k v
  end.

(** [d.update(e)], and [{**d, **e}] on a copy. *)
Definition dict_update {V : Type} (d e : list (string * V)) : list (string * V) :=
  fold_left (fun acc kv => dict_set acc (fst kv) (snd kv)) e d.

Definition dict_has {V : Type} (d : list (string * V)) (k : string) : bool :=
  match dict_get d k with
  | Some _ => true
  | None => false
  end.

(** [v[k]] for a string key [k]: only a dictionary can be subscripted so. *)
Definition getitem (v : jval) (k : string) : outcome jval :=
  match v with
  | JObj members =>
      match dict_get members k with
      | Some x => Return x
      | None => Raise (KeyError k)
      end
  | JArr _ => Raise (TypeError "list indices must be integers or slices, not str")
  | JStr _ => Raise (TypeError "string indices must be integers")
  | _ => Raise (TypeError "object is not subscriptable")
  end.

(** ** [json.dumps] *)

Definition dquote : ascii := "034"%char.
Definition backslash : ascii := "092"%char.

Definition hexdigit (n : N) : ascii :=
  ascii_of_N (if (n <? 10)%N then 48 + n else 87 + n)%N.

(** One character of a string under [ensure_ascii]: the printable ASCII
    characters stand for themselves, but for the quote and the backslash;
    seven characters have a short escape; everything else is [\u00xx].
    This is the encoder on the strings of this development, whose
    characters are code points below 256: the four-digit escapes of the
    code points from 256 up and the surrogate pairs of those beyond the
    basic plane are outside it. *)
Definition escape_char (c : ascii) : string :=
  let n := N_of_ascii c in
  if (n =? 34)%N then String backslash (String dquote "")
  else if (n =? 92)%N then String backslash (String backslash "")
  else if (n =? 10)%N then String backslash "n"
  else if (n =? 13)%N then String backslash "r"
  else if (n =? 9)%N then String backslash "t"
  else if (n =? 12)%N then String backslash "f"
  else if (n =? 8)%N then String backslash "b"
  else if ((32 <=? n) && (n <=? 126))%N then String c ""
  else String backslash
         (String "u" (String "0" (String "0"
            (String (hexdigit (n / 16)) (String (hexdigit (n mod 16)) ""))))).

Fixpoint escape_body (s : string) : string :=
  match s with
  | EmptyString => ""
  | String c rest => escape_char c +:+ escape_body rest
  end.

Definition encode_basestring_ascii (s : string) : string :=
  String dquote (escape_body s +:+ String dquote "").

(** [json.dumps(v, separators=(item_sep, key_sep))] *)
Fixpoint dumps (item_sep key_sep : string) (v : jval) : string :=
  match v with
  | JNull => "null"
  | JBool true => "true"
  | JBool false => "false"
  | JInt z => str_of_int z
  | JStr s => encode_basestring_ascii s
  | JArr items =>
      "[" +:+ String.concat item_sep (map (dumps item_sep key_sep) items) +:+ "]"
  | JObj members =>
      "{" +:+ String.concat item_sep
                (map (fun kv => match kv with
                                | (k, x) => encode_basestring_ascii k +:+ key_sep
                                            +:+ dumps item_sep key_sep x
                                end) members) +:+ "}"
  end.

(** [json.dumps(v)]: the separators are [', '] and [': ']. *)
Definition dumps_default : jval -> string := dumps ", " ": ".

(** [json.dumps(v, separators=(',', ':'))] *)
Definition dumps_compact : jval -> string := dumps "," ":".

End Py.

Import Py.

(** * The outside of the module *)

Definition bytes : Type := list Byte.byte.

(** Ordered string-to-string dictionaries: query parameters, form fields,
    headers. *)
Definition fields : Type := list (string * string).

(** ** The registry, as a decoded list reply shows it

    Of a certificate the module reads ['id'] and ['services'], of a service
    ['display_name']. *)
Module Registry.

Record service := { display_name : string }.

Record cert := { id : string; services : list service }.

(** The value under ['data'], with or without a ['certificates'] key. *)
Record data := { certificates : option (list cert) }.

(** What [request_data] hands back: a text, or the decoded dictionary, with
    or without a ['data'] key. *)
Inductive reply :=
| Text (s : string)
| Dict (d : option data).

End Registry.

(** ** Endpoint tables and the session *)

Record api_info := { path : string; minVersion : Z }.

Record Session := {
  app_api_list : gmap string api_info;
  _syno_token : string;
  _version : Z;
  verify_cert_enabled : bool
}.

(** ** HTTP *)

(** A multipart part [(filename, fileobj, content_type)]; the open file
    stands for the bytes that [requests] reads from it. *)
Record file_part := { filename : string; fileobj : bytes; content_type : string }.

(** The response of [requests]: [json] is [None] where [Response.json()]
    raises. *)
Record response := { status_code : Z; content : bytes; json : option jval }.

(** ** What a call does to the outside *)
Inductive event :=
| RequestData (api_name api_path : string) (req_param : fields)
| Post (url : string) (params data : fields)
       (files : list (string * file_part)) (verify : bool) (headers : fields)
| Get (url : string) (verify : bool) (headers : fields)
| Open (name : string)
| Close (name : string)
| Print (line : string).

(** ** The collaborators *)
Record world := {
  (** [BaseApi.request_data] *)
  request_data : string -> string -> fields -> outcome Registry.reply;
  (** [requests.session().post] and [.get] *)
  http_post : string -> fields -> fields -> list (string * file_part) ->
              bool -> fields -> outcome response;
  http_get : string -> bool -> fields -> outcome response;
  (** [open(name, 'rb')]: the bytes of the file, [None] where it cannot be
      opened *)
  file_bytes : string -> option bytes;
  (** the exception that [open] raises then: [FileNotFoundError],
      [IsADirectoryError], [PermissionError] or another [OSError] *)
  open_error : string -> exn;
  (** [os.path.abspath] *)
  abspath : string -> string
}.

(** * The monad of a call: a trace, and a value or an exception *)

Definition M (A : Type) : Type := list event -> outcome A * list event.

Definition ret {A : Type} (a : A) : M A := fun tr => (Return a, tr).

Definition raise {A : Type} (e : exn) : M A := fun tr => (Raise e, tr).

Definition bind {A B : Type} (m : M A) (k : A -> M B) : M B :=
  fun tr =>
    match m tr with
    | (Return a, tr') => k a tr'
    | (Raise e, tr') => (Raise e, tr')
    end.

Definition emit (ev : event) : M unit := fun tr => (Return tt, tr ++ [ev]).

Definition lift {A : Type} (o : outcome A) : M A := fun tr => (o, tr).

Definition run {A : Type} (m : M A) : outcome A * list event := m [].

Declare Scope call_scope.
Delimit Scope call_scope with call.
Notation "x <- m ;; k" := (bind m (fun x => k))
  (at level 100, m at next level, right associativity) : call_scope.
Notation "m ;;; k" := (bind m (fun _ => k))
  (at level 100, right associativity) : call_scope.
Local Open Scope call_scope.

(** [print(line)] *)
Definition print (line : string) : M unit := emit (Print line).

(** [if c: body], for a body that is a statement *)
Definition when (c : bool) (body : M unit) : M unit := if c then body else ret tt.

(** [d[k]] on an endpoint table *)
Definition subscript (d : gmap string api_info) (k : string) : M api_info :=
  match d !! k with
  | Some v => ret v
  | None => raise (KeyError k)
  end.

(** [d[k]] on a dictionary literal *)
Definition subscript_dict {V : Type} (d : list (string * V)) (k : string) : M V :=
  match dict_get d k with
  | Some v => ret v
  | None => raise (KeyError k)
  end.

(** [r.json()] *)
Definition json_of (r : response) : M jval :=
  match json r with
  | Some v => ret v
  | None => raise JSONDecodeError
  end.

(** [200 == r.status_code and r.json()['success']], as the [if] takes it:
    the right operand is evaluated only after a 200. *)
Definition succeeded (r : response) : M bool :=
  if status_code r =? 200 then
    body <- json_of r ;;
    flag <- lift (getitem body "success") ;;
    ret (truthy flag)
  else ret false.

(** * The class [Certificate] *)

Module Certificate.

(** The attributes of [self] that the methods read. *)
Record t := {
  session : Session;
  gen_list : gmap string api_info;
  base_url : string;
  _sid : string;
  _debug : bool
}.

(** The [ids] argument: [str | list[str]] *)
Inductive ids_arg :=
| IdStr (s : string)
| IdList (l : list string).

Definition ids_truthy (ids : option ids_arg) : bool :=
  match ids with
  | Some (IdStr s) => str_truthy s
  | Some (IdList l) => match l with [] => false | _ => true end
  | None => false
  end.

(** The argument of [json.dumps(ids)] *)
Definition ids_json (ids : option ids_arg) : jval :=
  match ids with
  | Some (IdStr s) => JStr s
  | Some (IdList l) => JArr (map JStr l)
  | None => JNull
  end.

(** What an f-string makes of an optional string. *)
Definition fmt (o : option string) : string :=
  match o with
  | Some s => s
  | None => "None"
  end.

(** The scan of [set_certificate_for_service] for the previous certificate.
    The inner loop tells whether it assigned: it stops ([break]) at the
    first service of this certificate with the name. *)
Fixpoint scan_services (services : list Registry.service) (service_name : string)
  : bool :=
  match services with
  | [] => false
  | service :: rest =>
      if String.eqb (Registry.display_name service) service_name then true
      else scan_services rest service_name
  end.

(** The outer loop runs over every certificate, whatever the inner loop
    did. *)
Definition scan_certs (certs : list Registry.cert) (service_name : string)
  : string :=
  fold_left
    (fun old_certid cert =>
       if scan_services (Registry.services cert) service_name
       then Registry.id cert
       else old_certid)
    certs "".

Definition servicedatadict : list (string * list (string * jval)) :=
  [("DSM Desktop Service",
    [("display_name", JStr "DSM Desktop Service");
     ("display_name_i18n", JStr "common:web_desktop");
     ("isPkg", JBool false);
     ("owner", JStr "root");
     ("service", JStr "default");
     ("subscriber", JStr "system")])].

Definition servicedatadictdsm7 : list (string * list (string * jval)) :=
  [("DSM Desktop Service",
    [("multiple_cert", JBool true);
     ("user_setable", JBool true)])].

Definition x509 : string := "application/x-x509-ca-cert".

(** [BytesIO]: the buffer and the position in it *)
Record BytesIO := { getvalue : bytes; tell : N }.

Definition new_BytesIO (initial_bytes : bytes) : BytesIO :=
  {| getvalue := initial_bytes; tell := 0 |}.

Section Methods.

Variable self : t.
Variable w : world.

Definition call_request_data (api_name api_path : string) (req_param : fields)
  : M Registry.reply :=
  emit (RequestData api_name api_path req_param) ;;;
  lift (request_data w api_name api_path req_param).

Definition post (url : string) (params data : fields)
  (files : list (string * file_part)) (verify : bool) (headers : fields)
  : M response :=
  emit (Post url params data files verify headers) ;;;
  lift (http_post w url params data files verify headers).

Definition get (url : string) (verify : bool) (headers : fields) : M response :=
  emit (Get url verify headers) ;;;
  lift (http_get w url verify headers).

(** [with open(name, 'rb') as f: body]: a file that cannot be opened raises
    what [open] raises for it; an open file is closed however the body
    ends. *)
Definition with_open {A : Type} (name : string) (body : bytes -> M A) : M A :=
  fun tr =>
    match file_bytes w name with
    | None => (Raise (open_error w name), tr)
    | Some f =>
        match body f (tr ++ [Open name]) with
        | (o, tr') => (o, tr' ++ [Close name])
        end
    end.

(** The end of [upload_cert] and of [set_certificate_for_service], the same
    but for the line printed: after a 200 with a true ['success'], and when
    debugging, print; then return the status code and the decoded body. *)
Definition conclude (r : response) (line : string) : M (Z * jval) :=
  ok <- succeeded r ;;
  when ok (when (_debug self) (print line)) ;;;
  body <- json_of r ;;
  ret (status_code r, body).

Definition _base_certificate_methods (method : string)
  (cert_id : option string) (ids : option ids_arg) : M Registry.reply :=
  let available_method := ["list"; "set"; "delete"] in
  if negb (existsb (String.eqb method) available_method) then
    ret (Registry.Text ("Method " +:+ method +:+ " no supported."))
  else
    let api_name := "SYNO.Core.Certificate.CRT" in
    info <- subscript (gen_list self) api_name ;;
    let api_path := path info in
    let req_param := [("version", "1"); ("method", method)] in
    let req_param :=
      if String.eqb "set" method && opt_truthy cert_id then
        dict_update req_param
          [("as_default", "true");
           ("desc", String dquote (String dquote ""));
           ("id", String dquote (fmt cert_id +:+ String dquote ""))]
      else if String.eqb "delete" method && ids_truthy ids then
        let ids := dumps_default (ids_json ids) in
        dict_update req_param [("ids", ids)]
      else req_param in
    call_request_data api_name api_path req_param.

Definition list_cert : M Registry.reply :=
  _base_certificate_methods "list" None None.

Definition set_default_cert (cert_id : option string) : M Registry.reply :=
  _base_certificate_methods "set" cert_id None.

Definition delete_certificate (ids : ids_arg) : M Registry.reply :=
  let ids := match ids with
             | IdStr s => IdList [s]
             | IdList l => IdList l
             end in
  _base_certificate_methods "delete" None (Some ids).

Definition upload_cert (serv_key ser_cert : string) (ca_cert : option string)
  (set_as_default : bool) (cert_id desc : option string) : M (Z * jval) :=
  let api_name := "SYNO.Core.Certificate" in
  info <- subscript (app_api_list (session self)) api_name ;;
  let api_path := path info in
  let serv_key := abspath w serv_key in
  let ser_cert := abspath w ser_cert in
  let ca_cert := match ca_cert with
                 | Some ca_cert =>
                     if str_truthy ca_cert then Some (abspath w ca_cert) else None
                 | None => None
                 end in
  let url := (base_url self +:+ api_path)
             +:+ ("?api=" +:+ api_name +:+ "&version=" +:+ str_of_int (minVersion info)
                  +:+ "&method=import&_sid=" +:+ _sid self) in
  when (opt_truthy cert_id) (print ("update exist cert: " +:+ fmt cert_id)) ;;;
  let data_payload := [("id", or_empty cert_id); ("desc", or_empty desc);
                       ("as_default", if set_as_default then "true" else "")] in
  let verify := verify_cert_enabled (session self) in
  let headers := [("X-SYNO-TOKEN", _syno_token (session self))] in
  r <- with_open serv_key (fun payload_serv_key =>
       with_open ser_cert (fun payload_ser_cert =>
         let files :=
           [("key", {| filename := serv_key; fileobj := payload_serv_key;
                       content_type := x509 |});
            ("cert", {| filename := ser_cert; fileobj := payload_ser_cert;
                        content_type := x509 |})] in
         match ca_cert with
         | Some ca_cert =>
             if str_truthy ca_cert then
               with_open ca_cert (fun payload_ca_cert =>
                 let files :=
                   dict_set files "inter_cert"
                     {| filename := ca_cert; fileobj := payload_ca_cert;
                        content_type := x509 |} in
                 post url [] data_payload files verify headers)
             else post url [] data_payload files verify headers
         | None => post url [] data_payload files verify headers
         end)) ;;
  conclude r "Certificate upload successful.".

Definition set_certificate_for_service (cert_id service_name : string)
  : M (Z * jval) :=
  let api_name := "SYNO.Core.Certificate.Service" in
  info <- subscript (app_api_list (session self)) api_name ;;
  let api_path := path info in
  listed <- list_cert ;;
  data <- match listed with
          | Registry.Text _ => raise (TypeError "string indices must be integers")
          | Registry.Dict None => raise (KeyError "data")
          | Registry.Dict (Some d) => ret d
          end ;;
  certs <- match Registry.certificates data with
           | None => raise (KeyError "certificates")
           | Some certs => ret certs
           end ;;
  let old_certid := scan_certs certs service_name in
  if String.eqb old_certid cert_id then
    when (_debug self) (print "Certificate already set, aborting") ;;;
    ret (200, JStr "Certificate already set, aborting")
  else
    base <- subscript_dict servicedatadict service_name ;;
    dsm7 <- (if _version (session self) =? 7
             then subscript_dict servicedatadictdsm7 service_name
             else ret []) ;;
    let payloaddict :=
      [("settings",
        dumps_compact
          (JArr [JObj [("service", JObj (dict_update base dsm7));
                       ("old_id", JStr old_certid);
                       ("id", JStr cert_id)]]));
       ("api", api_name);
       ("version", str_of_int (minVersion info));
       ("method", "set")] in
    let paramdict := [("_sid", _sid self)] in
    let url := base_url self +:+ api_path in
    let headers := [("X-SYNO-TOKEN", _syno_token (session self))] in
    r <- post url paramdict payloaddict [] (verify_cert_enabled (session self)) headers ;;
    conclude r "Certificate set successfully.".

Definition export_cert (cert_id : string) : M (option BytesIO) :=
  let api_name := "SYNO.Core.Certificate" in
  info <- subscript (app_api_list (session self)) api_name ;;
  let api_path := path info in
  let url := base_url self +:+ api_path +:+ "?"
             +:+ "api=" +:+ api_name +:+ "&"
             +:+ "version=" +:+ str_of_int (minVersion info) +:+ "&"
             +:+ "method=export&"
             +:+ "file=" +:+ String dquote ("archive" +:+ String dquote "&")
             +:+ "_sid=" +:+ _sid self +:+ "&"
             +:+ "id=" +:+ cert_id in
  result <- get url (verify_cert_enabled (session self))
              [("X-SYNO-TOKEN", _syno_token (session self))] ;;
  if status_code result =? 200 then ret (Some (new_BytesIO (content result)))
  else ret None.

End Methods.

End Certificate.

Import Certificate.

(** * Vocabulary of the statements *)

Definition crt_api : string := "SYNO.Core.Certificate.CRT".
Definition service_api : string := "SYNO.Core.Certificate.Service".
Definition transfer_api : string := "SYNO.Core.Certificate".

Definition token_header (self : t) : fields :=
  [("X-SYNO-TOKEN", _syno_token (session self))].

Definition list_params : fields := [("version", "1"); ("method", "list")].

(** The call finds its endpoints and its list request is answered with the
    snapshot [certs]. *)
Definition reads_registry (self : t) (w : world) (svc crt : api_info)
  (certs : list Registry.cert) : Prop :=
  app_api_list (session self) !! service_api = Some svc /\
  gen_list self !! crt_api = Some crt /\
  request_data w crt_api (path crt) list_params
  = Return (Registry.Dict (Some {| Registry.certificates := Some certs |})).

(** A request that can change the appliance: any POST, and any registry
    request but a list. *)
Definition mutates (ev : event) : bool :=
  match ev with
  | Post _ _ _ _ _ _ => true
  | RequestData _ _ req_param =>
      match dict_get req_param "method" with
      | Some m => negb (String.eqb m "list")
      | None => true
      end
  | _ => false
  end.

Definition write_calls (tr : list event) : list event := filter mutates tr.

(** The certificate carries a binding of the service. *)
Definition serves (service_name : string) (cert : Registry.cert) : bool :=
  existsb (fun s => String.eqb (Registry.display_name s) service_name)
    (Registry.services cert).

Definition export_url (self : t) (info : api_info) (cert_id : string) : string :=
  base_url self +:+ path info +:+ "?"
  +:+ "api=" +:+ "SYNO.Core.Certificate" +:+ "&"
  +:+ "version=" +:+ str_of_int (minVersion info) +:+ "&"
  +:+ "method=export&"
  +:+ "file=" +:+ String dquote ("archive" +:+ String dquote "&")
  +:+ "_sid=" +:+ _sid self +:+ "&"
  +:+ "id=" +:+ cert_id.

(** The service descriptor of a binding update, field by field. *)
Definition base_fields : list (string * jval) :=
  [("display_name", JStr "DSM Desktop Service");
   ("display_name_i18n", JStr "common:web_desktop");
   ("isPkg", JBool false);
   ("owner", JStr "root");
   ("service", JStr "default");
   ("subscriber", JStr "system")].

Definition dsm7_fields : list (string * jval) :=
  [("multiple_cert", JBool true); ("user_setable", JBool true)].

Definition has_dsm7_fields (d : list (string * jval)) : Prop :=
  dict_get d "multiple_cert" = Some (JBool true) /\
  dict_get d "user_setable" = Some (JBool true).

Definition descriptor (version : Z) : list (string * jval) :=
  base_fields ++ (if version =? 7 then dsm7_fields else []).

(** The binding update on the wire: the one-element list, compact. *)
Definition bind_settings (d : list (string * jval)) (old_certid cert_id : string)
  : string :=
  dumps_compact
    (JArr [JObj [("service", JObj d); ("old_id", JStr old_certid);
                 ("id", JStr cert_id)]]).

Definition bind_form (self : t) (svc : api_info) (old_certid cert_id : string)
  : fields :=
  [("settings",
    bind_settings (descriptor (_version (session self))) old_certid cert_id);
   ("api", service_api);
   ("version", str_of_int (minVersion svc));
   ("method", "set")].

Definition bind_request (self : t) (svc : api_info) (old_certid cert_id : string)
  : event :=
  Post (base_url self +:+ path svc) [("_sid", _sid self)]
    (bind_form self svc old_certid cert_id) []
    (verify_cert_enabled (session self)) (token_header self).

Definition bind_answer (self : t) (w : world) (svc : api_info)
  (old_certid cert_id : string) : outcome response :=
  http_post w (base_url self +:+ path svc) [("_sid", _sid self)]
    (bind_form self svc old_certid cert_id) []
    (verify_cert_enabled (session self)) (token_header self).

Definition list_request (crt : api_info) : event :=
  RequestData crt_api (path crt) list_params.

(** The [settings] fields among the requests of a trace. *)
Definition submitted_settings (tr : list event) : list string :=
  flat_map (fun ev => match ev with
                      | Post _ _ data _ _ _ =>
                          match dict_get data "settings" with
                          | Some s => [s]
                          | None => []
                          end
                      | _ => []
                      end) tr.

(** Follows the spec's words (4.3, step 2): of the certificates that claim
    the service, the first in registry order. *)
Definition first_match (service_name : string) (certs : list Registry.cert)
  : option string :=
  option_map Registry.id (find (serves service_name) certs).

(** The last of them. *)
Definition last_match (service_name : string) (certs : list Registry.cert)
  : option string :=
  first_match service_name (rev certs).

(** ** Upload *)

Definition import_url (self : t) (info : api_info) : string :=
  (base_url self +:+ path info)
  +:+ ("?api=" +:+ "SYNO.Core.Certificate" +:+ "&version="
       +:+ str_of_int (minVersion info) +:+ "&method=import&_sid=" +:+ _sid self).

Definition upload_data (set_as_default : bool) (cert_id desc : option string)
  : fields :=
  [("id", or_empty cert_id); ("desc", or_empty desc);
   ("as_default", if set_as_default then "true" else "")].


(** The part made of a file: its absolute name, its bytes, the X.509 type;
    [None] when the file cannot be opened. *)
Definition part (w : world) (name : string) : option file_part :=
  option_map
    (fun f => {| filename := abspath w name; fileobj := f; content_type := x509 |})
    (file_bytes w (abspath w name)).

(** The [files] of the requests of a trace. *)
Definition posted_files (tr : list event) : list (list (string * file_part)) :=
  flat_map (fun ev => match ev with
                      | Post _ _ _ files _ _ => [files]
                      | _ => []
                      end) tr.

(** The parts of an upload: [key], [cert] and, for a path that was given,
    [inter_cert]; [None] when one of the files cannot be opened. *)
Definition upload_parts (w : world) (serv_key ser_cert : string)
  (ca_cert : option string) : option (list (string * file_part)) :=
  match part w serv_key, part w ser_cert with
  | Some k, Some c =>
      match ca_cert with
      | Some name =>
          if str_truthy name then
            option_map (fun i => [("key", k); ("cert", c); ("inter_cert", i)])
              (part w name)
          else Some [("key", k); ("cert", c)]
      | None => Some [("key", k); ("cert", c)]
      end
  | _, _ => None
  end.

Definition upload_answer (self : t) (w : world) (info : api_info)
  (set_as_default : bool) (cert_id desc : option string)
  (files : list (string * file_part)) : outcome response :=
  http_post w (import_url self info) [] (upload_data set_as_default cert_id desc)
    files (verify_cert_enabled (session self)) (token_header self).

(** ** The registry requests *)

Definition quoted (s : string) : string := String dquote (s +:+ String dquote "").

(** The parameters of the request of [set_default_cert]. *)
Definition set_params (cert_id : option string) : fields :=
  [("version", "1"); ("method", "set")]
  ++ match cert_id with
     | Some s =>
         if str_truthy s
         then [("as_default", "true"); ("desc", quoted ""); ("id", quoted s)]
         else []
     | None => []
     end.

(** The collection that [delete_certificate] works on. *)
Definition id_collection (ids : ids_arg) : list string :=
  match ids with
  | IdStr s => [s]
  | IdList l => l
  end.

(** The parameters of the request of [delete_certificate]. *)
Definition delete_params (ids : ids_arg) : fields :=
  [("version", "1"); ("method", "delete")]
  ++ match id_collection ids with
     | [] => []
     | l => [("ids", dumps_default (JArr (map JStr l)))]
     end.

Definition already_set : string := "Certificate already set, aborting".

(** ** Reading JSON strings back

    The reader's side of [encode_basestring_ascii]: [read_string] takes the
    text after an opening quote and gives the string up to the closing
    quote, and what follows it. *)

Definition unhex (c : ascii) : option N :=
  let n := N_of_ascii c in
  if ((48 <=? n) && (n <=? 57))%N then Some (n - 48)%N
  else if ((97 <=? n) && (n <=? 102))%N then Some (n - 87)%N
  else None.

Definition short_escape (c : ascii) : option ascii :=
  let n := N_of_ascii c in
  if (n =? 34)%N then Some dquote
  else if (n =? 92)%N then Some backslash
  else if (n =? 110)%N then Some "010"%char
  else if (n =? 114)%N then Some "013"%char
  else if (n =? 116)%N then Some "009"%char
  else if (n =? 102)%N then Some "012"%char
  else if (n =? 98)%N then Some "008"%char
  else None.

Definition read_more (c : ascii) (more : option (string * string))
  : option (string * string) :=
  match more with
  | Some (x, tail) => Some (String c x, tail)
  | None => None
  end.

Fixpoint read_string (s : string) : option (string * string) :=
  match s with
  | EmptyString => None
  | String c rest =>
      if Ascii.eqb c dquote then Some ("", rest)
      else if Ascii.eqb c backslash then
        match rest with
        | EmptyString => None
        | String e rest1 =>
            if Ascii.eqb e "u" then
              match rest1 with
              | String z1 (String z2 (String h (String l rest2))) =>
                  if Ascii.eqb z1 "0" && Ascii.eqb z2 "0" then
                    match unhex h, unhex l with
                    | Some a, Some b =>
                        read_more (ascii_of_N (16 * a + b)) (read_string rest2)
                    | _, _ => None
                    end
                  else None
              | _ => None
              end
            else
              match short_escape e with
              | Some d => read_more d (read_string rest1)
              | None => None
              end
        end
      else read_more c (read_string rest)
  end.

(** The elements of an array of strings, from the opening quote of the
    first one to the closing bracket, the separator being [sep]. *)
Fixpoint read_elements (fuel : nat) (s : string) : option (list string) :=
  match fuel with
  | O => None
  | S fuel =>
      match s with
      | EmptyString => None
      | String q rest =>
          if Ascii.eqb q dquote then
            match read_string rest with
            | Some (x, String c1 tail1) =>
                if Ascii.eqb c1 "]" then
                  match tail1 with
                  | EmptyString => Some [x]
                  | _ => None
                  end
                else if Ascii.eqb c1 "," then
                  match tail1 with
                  | String c2 tail2 =>
                      if Ascii.eqb c2 " "
                      then option_map (cons x) (read_elements fuel tail2)
                      else None
                  | EmptyString => None
                  end
                else None
            | _ => None
            end
          else None
      end
  end.

(** [json.loads] on the text of an array of strings, as [json.dumps] with
    its default separators writes it. *)
Definition loads_strings (s : string) : option (list string) :=
  match s with
  | String b rest =>
      if Ascii.eqb b "[" then
        match rest with
        | String c EmptyString => if Ascii.eqb c "]" then Some [] else None
        | _ => read_elements (String.length rest) rest
        end
      else None
  | EmptyString => None
  end.

(** * Sample inputs *)

Definition sample_info : api_info := {| path := "entry.cgi"; minVersion := 1 |}.

Definition sample_tables : gmap string api_info :=
  <[ transfer_api := sample_info ]>
    (<[ crt_api := sample_info ]> {[ service_api := sample_info ]}).

Definition sample_self (version : Z) : t :=
  {| session := {| app_api_list := sample_tables; _syno_token := "token";
                   _version := version; verify_cert_enabled := false |};
     gen_list := sample_tables;
     base_url := "https://nas:5001/webapi/";
     _sid := "sid";
     _debug := true |}.

Definition desktop : Registry.service :=
  {| Registry.display_name := "DSM Desktop Service" |}.

Definition ftps : Registry.service := {| Registry.display_name := "FTPS" |}.

Definition sample_certs : list Registry.cert :=
  [{| Registry.id := "111"; Registry.services := [ftps; desktop] |};
   {| Registry.id := "333"; Registry.services := [] |}].

Definition sample_response (status : Z) (body : jval) : response :=
  {| status_code := status; content := [Byte.x50; Byte.x4b]; json := Some body |}.

Definition sample_world (certs : list Registry.cert) (r : response) : world :=
  {| request_data := fun _ _ req_param =>
       match dict_get req_param "method" with
       | Some "list" =>
           Return (Registry.Dict (Some {| Registry.certificates := Some certs |}))
       | _ => Return (Registry.Dict None)
       end;
     http_post := fun _ _ _ _ _ _ => Return r;
     http_get := fun _ _ _ => Return r;
     file_bytes := fun name =>
       if String.eqb name "/ssl/missing.pem" || String.eqb name "/ssl/private"
       then None else Some [Byte.x2d];
     open_error := fun name =>
       if String.eqb name "/ssl/private" then IsADirectoryError name
       else FileNotFoundError name;
     abspath := fun name => "/ssl/" +:+ name |}.

Definition ok_body : jval := JObj [("success", JBool true)].

Definition failed_body : jval :=
  JObj [("error", JObj [("code", JInt 5502)]); ("success", JBool false)].

(** Two certificates that claim the desktop service. *)
Definition two_claimants : list Registry.cert :=
  [{| Registry.id := "111"; Registry.services := [desktop] |};
   {| Registry.id := "222"; Registry.services := [ftps; desktop] |}].

(** ** Vocabulary of the further properties *)

Definition is_print (ev : event) : bool :=
  match ev with
  | Print _ => true
  | _ => false
  end.

(** The trace without the printed lines. *)
Definition quiet (tr : list event) : list event :=
  List.filter (fun ev => negb (is_print ev)) tr.

(** [self] with another debug flag. *)
Definition set_debug (debug : bool) (self : t) : t :=
  {| session := session self; gen_list := gen_list self;
     base_url := base_url self; _sid := _sid self; _debug := debug |}.

(** The files that a trace leaves open, the one opened last first, starting
    from [stack]; [None] when a file is closed that was not the one opened
    last. *)
Fixpoint open_files (tr : list event) (stack : list string)
  : option (list string) :=
  match tr with
  | [] => Some stack
  | Open name :: tr => open_files tr (name :: stack)
  | Close name :: tr =>
      match stack with
      | top :: rest =>
          if String.eqb top name then open_files tr rest else None
      | [] => None
      end
  | _ :: tr => open_files tr stack
  end.

(** Every request of the trace is sent while the files of all its parts are
    open; a [Close] closes the file opened last. *)
Fixpoint parts_open (tr : list event) (stack : list string) : bool :=
  match tr with
  | [] => true
  | Open name :: tr => parts_open tr (name :: stack)
  | Close _ :: tr => parts_open tr (tl stack)
  | Post _ _ _ files _ _ :: tr =>
      forallb (fun p => existsb (String.eqb (filename (snd p))) stack) files
      && parts_open tr stack
  | _ :: tr => parts_open tr stack
  end.

(** The request goes out under the session's token and TLS policy. *)
Definition authenticated (self : t) (ev : event) : Prop :=
  match ev with
  | Post _ _ _ _ verify headers | Get _ verify headers =>
      verify = verify_cert_enabled (session self) /\
      headers = [("X-SYNO-TOKEN", _syno_token (session self))]
  | _ => True
  end.

(** Printable ASCII, space to tilde. *)
Definition printable (c : ascii) : bool :=
  let n := N_of_ascii c in ((32 <=? n) && (n <=? 126))%N.

Fixpoint all_printable (s : string) : bool :=
  match s with
  | EmptyString => true
  | String c rest => printable c && all_printable rest
  end.

(** The line that [upload_cert] prints for a certificate to update. *)
Definition update_notice (cert_id : option string) : list event :=
  if opt_truthy cert_id then [Print ("update exist cert: " +:+ fmt cert_id)]
  else [].

(** * The methods, run *)

Ltac call_unfold :=
  cbv beta iota zeta delta
    [run bind ret raise emit lift when print subscript subscript_dict json_of
     succeeded call_request_data post get].

(** The two writings of [json.dumps], on small values. *)
Example dumps_compact_object :
  dumps_compact (JArr [JObj [("a", JBool true); ("b", JStr "x")]; JInt (-3); JNull])
  = "[{" +:+ quoted "a" +:+ ":true," +:+ quoted "b" +:+ ":" +:+ quoted "x"
    +:+ "},-3,null]".
Proof. reflexivity. Qed.

Example dumps_default_strings :
  dumps_default (JArr [JStr "a"; JStr (String dquote (String "010" "~"))])
  = "[" +:+ quoted "a" +:+ ", "
    +:+ quoted (String backslash (String dquote (String backslash "n~"))) +:+ "]".
Proof. reflexivity. Qed.

Example escape_above_ascii :
  escape_body (String "233" (String "127" "")) = String backslash "u00e9"
                                               +:+ String backslash "u007f".
Proof. reflexivity. Qed.

Example merge_keeps_order :
  dict_update [("a", 1); ("b", 2)] [("b", 3); ("c", 4)]
  = [("a", 1); ("b", 3); ("c", 4)].
Proof. reflexivity. Qed.

Lemma list_cert_run (self : t) (w : world) (crt : api_info) (tr : list event) :
  gen_list self !! crt_api = Some crt ->
  list_cert self w tr
  = (request_data w crt_api (path crt) list_params,
     tr ++ [RequestData crt_api (path crt) list_params]).
Proof.
  intros Hcrt. unfold list_cert, _base_certificate_methods.
  cbn [existsb String.eqb Ascii.eqb Bool.eqb negb orb andb opt_truthy ids_truthy].
  call_unfold. fold crt_api. rewrite Hcrt.
  destruct (request_data w crt_api (path crt) _); reflexivity.
Qed.

(** The scan, up to the comparison with the requested certificate. *)
Lemma bind_run_scanned (self : t) (w : world) (svc crt : api_info)
  (certs : list Registry.cert) (cert_id service_name : string) :
  reads_registry self w svc crt certs ->
  run (set_certificate_for_service self w cert_id service_name)
  = (if String.eqb (scan_certs certs service_name) cert_id then
       bind (when (_debug self) (print already_set))
            (fun _ => ret (200, JStr already_set))
     else
       bind (subscript_dict servicedatadict service_name) (fun base =>
       bind (if _version (session self) =? 7
             then subscript_dict servicedatadictdsm7 service_name
             else ret []) (fun dsm7 =>
       bind (post w (base_url self +:+ path svc) [("_sid", _sid self)]
               [("settings",
                 dumps_compact
                   (JArr [JObj [("service", JObj (dict_update base dsm7));
                                ("old_id", JStr (scan_certs certs service_name));
                                ("id", JStr cert_id)]]));
                ("api", service_api);
                ("version", str_of_int (minVersion svc));
                ("method", "set")]
               [] (verify_cert_enabled (session self)) (token_header self))
            (fun r => conclude self r "Certificate set successfully."))))
      [RequestData crt_api (path crt) list_params].
Proof.
  intros (Hsvc & Hcrt & Hlist).
  unfold set_certificate_for_service, run.
  unfold bind at 1, subscript at 1. fold service_api. rewrite Hsvc.
  unfold ret at 1. unfold bind at 1.
  rewrite (list_cert_run self w crt [] Hcrt), Hlist.
  reflexivity.
Qed.

Lemma bind_run_already_bound (self : t) (w : world) (svc crt : api_info)
  (certs : list Registry.cert) (cert_id service_name : string) :
  reads_registry self w svc crt certs ->
  scan_certs certs service_name = cert_id ->
  run (set_certificate_for_service self w cert_id service_name)
  = (Return (200, JStr already_set),
     list_request crt :: (if _debug self then [Print already_set] else [])).
Proof.
  intros Hreads Hscan.
  rewrite (bind_run_scanned self w svc crt certs cert_id service_name Hreads).
  rewrite Hscan, String.eqb_refl.
  destruct (_debug self); reflexivity.
Qed.

Lemma bind_run_submit (self : t) (w : world) (svc crt : api_info)
  (certs : list Registry.cert) (cert_id : string) :
  reads_registry self w svc crt certs ->
  scan_certs certs "DSM Desktop Service" <> cert_id ->
  let old_certid := scan_certs certs "DSM Desktop Service" in
  run (set_certificate_for_service self w cert_id "DSM Desktop Service")
  = match bind_answer self w svc old_certid cert_id with
    | Return r =>
        conclude self r "Certificate set successfully."
          [list_request crt; bind_request self svc old_certid cert_id]
    | Raise e =>
        (Raise e, [list_request crt; bind_request self svc old_certid cert_id])
    end.
Proof.
  intros Hreads Hscan old_certid.
  rewrite (bind_run_scanned self w svc crt certs cert_id _ Hreads).
  apply String.eqb_neq in Hscan. rewrite Hscan.
  unfold bind_answer, bind_request, bind_form, bind_settings, descriptor.
  destruct (_version (session self) =? 7); reflexivity.
Qed.

Lemma bind_run_unsupported (self : t) (w : world) (svc crt : api_info)
  (certs : list Registry.cert) (cert_id service_name : string) :
  reads_registry self w svc crt certs ->
  scan_certs certs service_name <> cert_id ->
  service_name <> "DSM Desktop Service" ->
  run (set_certificate_for_service self w cert_id service_name)
  = (Raise (KeyError service_name), [list_request crt]).
Proof.
  intros Hreads Hscan Hname.
  rewrite (bind_run_scanned self w svc crt certs cert_id _ Hreads).
  apply String.eqb_neq in Hscan. rewrite Hscan.
  assert (Hget : dict_get servicedatadict service_name = None).
  { unfold servicedatadict, dict_get.
    destruct (String.eqb_spec "DSM Desktop Service" service_name); congruence. }
  unfold bind at 1, subscript_dict at 1. rewrite Hget. reflexivity.
Qed.

(** ** The common end of the two submissions *)

Lemma conclude_trace (self : t) (r : response) (line : string) (tr : list event) :
  snd (conclude self r line tr) = tr \/
  snd (conclude self r line tr) = tr ++ [Print line].
Proof.
  unfold conclude. call_unfold.
  destruct (status_code r =? 200); [| destruct (json r); auto].
  destruct (json r) as [body|]; [| auto].
  destruct (getitem body "success") as [flag|]; [| auto].
  destruct (truthy flag); [| auto].
  destruct (_debug self); auto.
Qed.

Lemma conclude_writes (self : t) (r : response) (line : string) (tr : list event) :
  write_calls (snd (conclude self r line tr)) = write_calls tr.
Proof.
  destruct (conclude_trace self r line tr) as [-> | ->]; [reflexivity |].
  unfold write_calls. rewrite filter_app. cbn. apply app_nil_r.
Qed.

Lemma conclude_settings (self : t) (r : response) (line : string) (tr : list event) :
  submitted_settings (snd (conclude self r line tr)) = submitted_settings tr.
Proof.
  destruct (conclude_trace self r line tr) as [-> | ->]; [reflexivity |].
  unfold submitted_settings. rewrite flat_map_app. cbn. apply app_nil_r.
Qed.

Lemma getitem_dict (v x : jval) (k : string) :
  getitem v k = Return x -> exists members, v = JObj members.
Proof. destruct v; cbn; try discriminate. eauto. Qed.

(** Whatever [conclude] returns is the status code and the decoded body;
    after a 200 the body was subscripted, so it is a dictionary. *)
Lemma conclude_returns (self : t) (r : response) (line : string)
  (tr : list event) (status : Z) (body : jval) :
  fst (conclude self r line tr) = Return (status, body) ->
  status = status_code r /\ json r = Some body /\
  (status = 200 -> exists members, body = JObj members).
Proof.
  unfold conclude. call_unfold.
  destruct (status_code r =? 200) eqn:E200.
  - destruct (json r) as [b|]; [| discriminate].
    destruct (getitem b "success") as [flag|] eqn:Eflag; [| discriminate].
    intros H.
    assert (Hb : (status_code r, b) = (status, body)).
    { destruct (truthy flag); [destruct (_debug self) |]; cbn in H; congruence. }
    inversion Hb; subst. repeat split; eauto using getitem_dict.
  - destruct (json r) as [b|]; [| discriminate].
    cbn. intros H. inversion H; subst. repeat split.
    intros H200. rewrite H200 in E200. discriminate.
Qed.

Lemma conclude_not_200 (self : t) (r : response) (line : string)
  (tr : list event) (body : jval) :
  status_code r <> 200 -> json r = Some body ->
  conclude self r line tr = (Return (status_code r, body), tr).
Proof.
  intros Hst Hbody. unfold conclude. call_unfold.
  apply Z.eqb_neq in Hst. rewrite Hst, Hbody. reflexivity.
Qed.

Lemma conclude_200 (self : t) (r : response) (line : string)
  (tr : list event) (body flag : jval) :
  status_code r = 200 -> json r = Some body ->
  getitem body "success" = Return flag ->
  conclude self r line tr
  = (Return (200, body),
     tr ++ (if truthy flag && _debug self then [Print line] else [])).
Proof.
  intros Hst Hbody Hflag. unfold conclude. call_unfold.
  rewrite Hst, Hbody, Hflag. cbn.
  destruct (truthy flag); [destruct (_debug self) |]; cbn;
    rewrite ?app_nil_r; reflexivity.
Qed.

(** ** What is written can be read back *)

Lemma append_assoc (a b c : string) : (a +:+ b) +:+ c = a +:+ (b +:+ c).
Proof.
  induction a as [| x a IH]; [reflexivity |].
  change (String x ((a +:+ b) +:+ c) = String x (a +:+ b +:+ c)).
  rewrite IH. reflexivity.
Qed.

Lemma read_escape_char (c : ascii) (rest : string) :
  read_string (escape_char c +:+ rest) = read_more c (read_string rest).
Proof.
  destruct c as [b0 b1 b2 b3 b4 b5 b6 b7].
  destruct b0, b1, b2, b3, b4, b5, b6, b7; reflexivity.
Qed.

Lemma read_escape_body (s tail : string) :
  read_string (escape_body s +:+ String dquote tail) = Some (s, tail).
Proof.
  induction s as [| c s IH]; [reflexivity |].
  cbn [escape_body]. rewrite append_assoc, read_escape_char, IH. reflexivity.
Qed.

Lemma encode_unfold (s tail : string) :
  encode_basestring_ascii s +:+ tail
  = String dquote (escape_body s +:+ String dquote tail).
Proof.
  unfold encode_basestring_ascii.
  change (String dquote ((escape_body s +:+ String dquote "") +:+ tail)
          = String dquote (escape_body s +:+ String dquote tail)).
  rewrite append_assoc. reflexivity.
Qed.

(** The text of the elements of an array of strings and its closing
    bracket. *)
Lemma read_elements_written (l : list string) (x : string) (fuel : nat) :
  (length l < fuel)%nat ->
  read_elements fuel
    (String.concat ", " (map encode_basestring_ascii (x :: l)) +:+ "]")
  = Some (x :: l).
Proof.
  revert x fuel. induction l as [| y l IH]; intros x fuel Hfuel.
  - destruct fuel as [| fuel]; [inversion Hfuel |].
    cbn [map String.concat]. rewrite encode_unfold.
    cbn [read_elements]. rewrite Ascii.eqb_refl, read_escape_body. reflexivity.
  - destruct fuel as [| fuel]; [inversion Hfuel |].
    cbn [map] in *.
    change (String.concat ", " (encode_basestring_ascii x
              :: encode_basestring_ascii y :: map encode_basestring_ascii l))
      with (encode_basestring_ascii x +:+ ", "
            +:+ String.concat ", " (encode_basestring_ascii y
                  :: map encode_basestring_ascii l)).
    rewrite append_assoc, encode_unfold.
    cbn [read_elements]. rewrite Ascii.eqb_refl, read_escape_body.
    rewrite append_assoc.
    change (", " +:+ ?t) with (String "," (String " " t)).
    cbn [Ascii.eqb Bool.eqb].
    rewrite IH by (cbn in Hfuel; lia). reflexivity.
Qed.

Lemma dumps_strings (l : list string) :
  dumps_default (JArr (map JStr l))
  = "[" +:+ String.concat ", " (map encode_basestring_ascii l) +:+ "]".
Proof.
  unfold dumps_default. cbn [dumps]. rewrite map_map. reflexivity.
Qed.

Lemma append_length (a b : string) :
  String.length (a +:+ b) = (String.length a + String.length b)%nat.
Proof.
  induction a as [| x a IH]; [reflexivity |].
  change (S (String.length (a +:+ b)) = S (String.length a + String.length b)).
  now rewrite IH.
Qed.

Lemma encode_length (s : string) :
  String.length (encode_basestring_ascii s)
  = S (S (String.length (escape_body s))).
Proof.
  unfold encode_basestring_ascii. cbn [String.length].
  rewrite append_length. cbn. lia.
Qed.

Lemma written_elements_length (l : list string) (x : string) :
  (S (S (length l))
   < String.length
       (String.concat ", " (map encode_basestring_ascii (x :: l)) +:+ "]"))%nat.
Proof.
  revert x. induction l as [| y l IH]; intros x.
  - cbn [map String.concat]. rewrite append_length, encode_length. cbn. lia.
  - cbn [map] in *.
    change (String.concat ", " (encode_basestring_ascii x
              :: encode_basestring_ascii y :: map encode_basestring_ascii l))
      with (encode_basestring_ascii x +:+ ", "
            +:+ String.concat ", " (encode_basestring_ascii y
                  :: map encode_basestring_ascii l)).
    rewrite !append_assoc, append_length, append_length, encode_length.
    specialize (IH y). cbn [length String.length] in *. lia.
Qed.

(** Reading the text of an array of strings gives the strings back, in
    their order. *)
Lemma loads_dumps_strings (l : list string) :
  loads_strings (dumps_default (JArr (map JStr l))) = Some l.
Proof.
  rewrite dumps_strings. destruct l as [| x l]; [reflexivity |].
  change ("[" +:+ ?t) with (String "[" t).
  cbn [loads_strings Ascii.eqb Bool.eqb].
  pose proof (written_elements_length l x) as Hlen.
  assert (Hfuel : (length l
                   < String.length
                       (String.concat ", " (map encode_basestring_ascii (x :: l))
                        +:+ "]"))%nat) by lia.
  pose proof (read_elements_written l x _ Hfuel) as Hread.
  destruct (String.concat ", " (map encode_basestring_ascii (x :: l)) +:+ "]")
    as [| c [| c' rest]] eqn:E.
  - cbn in Hlen. lia.
  - cbn in Hlen. lia.
  - exact Hread.
Qed.

Lemma dumps_strings_inj (l l' : list string) :
  dumps_default (JArr (map JStr l)) = dumps_default (JArr (map JStr l')) ->
  l = l'.
Proof.
  intros Heq. pose proof (loads_dumps_strings l) as Hl.
  rewrite Heq, loads_dumps_strings in Hl. congruence.
Qed.

(** Where the two certificates stand in the settings of a binding update. *)
Lemma bind_settings_shape (d : list (string * jval)) (old_certid cert_id : string) :
  bind_settings d old_certid cert_id
  = ("[{" +:+ encode_basestring_ascii "service" +:+ ":"
     +:+ dumps_compact (JObj d) +:+ "," +:+ encode_basestring_ascii "old_id"
     +:+ ":" +:+ String dquote "")
    +:+ escape_body old_certid
    +:+ String dquote
          (("," +:+ encode_basestring_ascii "id" +:+ ":" +:+ String dquote "")
           +:+ escape_body cert_id +:+ String dquote "}]").
Proof.
  unfold bind_settings, dumps_compact.
  change (dumps "," ":" (JArr [JObj [("service", JObj d);
                                     ("old_id", JStr old_certid);
                                     ("id", JStr cert_id)]]))
    with ("[" +:+ ("{" +:+ ((encode_basestring_ascii "service" +:+ ":"
                             +:+ dumps "," ":" (JObj d))
                            +:+ "," +:+
                            (encode_basestring_ascii "old_id" +:+ ":"
                             +:+ encode_basestring_ascii old_certid)
                            +:+ "," +:+
                            (encode_basestring_ascii "id" +:+ ":"
                             +:+ encode_basestring_ascii cert_id)) +:+ "}")
          +:+ "]").
  rewrite !append_assoc.
  rewrite (encode_unfold old_certid), (encode_unfold cert_id). reflexivity.
Qed.

(** The settings tell both certificates. *)
Lemma bind_settings_inj (d : list (string * jval))
  (old_certid cert_id old_certid' cert_id' : string) :
  bind_settings d old_certid cert_id = bind_settings d old_certid' cert_id' ->
  old_certid = old_certid' /\ cert_id = cert_id'.
Proof.
  rewrite !bind_settings_shape. intros Heq.
  apply String.app_inj in Heq.
  apply (f_equal read_string) in Heq. rewrite !read_escape_body in Heq.
  injection Heq as Hold Hrest. split; [exact Hold |].
  apply String.app_inj in Hrest.
  apply (f_equal read_string) in Hrest. rewrite !read_escape_body in Hrest.
  congruence.
Qed.

(** ** The scan for the previous certificate *)

Lemma scan_services_serves (service_name : string) (cert : Registry.cert) :
  scan_services (Registry.services cert) service_name = serves service_name cert.
Proof.
  unfold serves. induction (Registry.services cert) as [| s rest IH]; cbn.
  - reflexivity.
  - destruct (String.eqb (Registry.display_name s) service_name); cbn; auto.
Qed.

Lemma scan_certs_snoc (certs : list Registry.cert) (cert : Registry.cert)
  (service_name : string) :
  scan_certs (certs ++ [cert]) service_name
  = if serves service_name cert then Registry.id cert
    else scan_certs certs service_name.
Proof.
  unfold scan_certs. rewrite fold_left_app. cbn.
  rewrite scan_services_serves. reflexivity.
Qed.

(** The scan ends on the last certificate that claims the service. *)
Lemma scan_certs_last_match (certs : list Registry.cert) (service_name : string) :
  scan_certs certs service_name
  = match last_match service_name certs with
    | Some i => i
    | None => ""
    end.
Proof.
  induction certs as [| cert certs IH] using rev_ind.
  - reflexivity.
  - rewrite scan_certs_snoc. unfold last_match, first_match in *.
    rewrite rev_unit. cbn [find].
    destruct (serves service_name cert); [reflexivity | exact IH].
Qed.

Lemma last_match_found (certs : list Registry.cert) (service_name i : string) :
  last_match service_name certs = Some i ->
  exists cert, In cert certs /\ serves service_name cert = true /\
               Registry.id cert = i.
Proof.
  unfold last_match, first_match.
  destruct (find (serves service_name) (rev certs)) as [cert|] eqn:E;
    [| discriminate].
  intros [= <-]. apply find_some in E as [Hin Hs].
  exists cert. rewrite in_rev. auto.
Qed.

Lemma scan_certs_unbound (certs : list Registry.cert) (service_name : string) :
  (forall cert, In cert certs -> serves service_name cert = false) ->
  scan_certs certs service_name = "".
Proof.
  intros Hnone. rewrite scan_certs_last_match.
  destruct (last_match service_name certs) as [i|] eqn:E; [| reflexivity].
  apply last_match_found in E as (cert & Hin & Hs & _).
  rewrite (Hnone cert Hin) in Hs. discriminate.
Qed.

(** Under the invariant of the registry (the claimants of a service agree
    on one certificate), the scan finds that certificate. *)
Lemma scan_certs_bound (certs : list Registry.cert) (service_name : string)
  (cert : Registry.cert) :
  In cert certs -> serves service_name cert = true ->
  (forall cert', In cert' certs -> serves service_name cert' = true ->
                 Registry.id cert' = Registry.id cert) ->
  scan_certs certs service_name = Registry.id cert.
Proof.
  intros Hin Hs Hinv. rewrite scan_certs_last_match.
  destruct (last_match service_name certs) as [i|] eqn:E.
  - apply last_match_found in E as (cert' & Hin' & Hs' & <-). auto.
  - unfold last_match, first_match in E.
    destruct (find (serves service_name) (rev certs)) eqn:F; [discriminate |].
    apply in_rev in Hin. rewrite (find_none _ _ F cert Hin) in Hs. discriminate.
Qed.

(** On the submitting path the trace is the list read, the POST, and at
    most a printed line. *)
Lemma bind_submit_trace (self : t) (w : world) (svc crt : api_info)
  (certs : list Registry.cert) (cert_id : string) :
  reads_registry self w svc crt certs ->
  scan_certs certs "DSM Desktop Service" <> cert_id ->
  let tr := snd (run (set_certificate_for_service self w cert_id
                        "DSM Desktop Service")) in
  let old_certid := scan_certs certs "DSM Desktop Service" in
  write_calls tr = [bind_request self svc old_certid cert_id] /\
  submitted_settings tr
  = [bind_settings (descriptor (_version (session self))) old_certid cert_id].
Proof.
  intros Hreads Hscan tr old_certid. subst tr.
  rewrite (bind_run_submit self w svc crt certs cert_id Hreads Hscan).
  fold old_certid.
  destruct (bind_answer self w svc old_certid cert_id) as [r | e].
  - rewrite conclude_writes, conclude_settings. split; reflexivity.
  - split; reflexivity.
Qed.

(** * The binding of a certificate to a service *)

(** C1: in a snapshot where the named service is bound to the requested
    certificate, that is, a certificate with the requested ID claims the
    service and every certificate that claims it has that ID,
    [set_certificate_for_service] returns
    [(200, "Certificate already set, aborting")]; the only request of the
    call is the list read, so nothing that can change the appliance is
    sent. *)
Theorem bind_same_certificate_writes_nothing (self : t) (w : world)
  (svc crt : api_info) (certs : list Registry.cert) (cert : Registry.cert)
  (cert_id service_name : string) :
  reads_registry self w svc crt certs ->
  In cert certs ->
  serves service_name cert = true ->
  Registry.id cert = cert_id ->
  (forall cert', In cert' certs -> serves service_name cert' = true ->
                 Registry.id cert' = cert_id) ->
  run (set_certificate_for_service self w cert_id service_name)
  = (Return (200, JStr already_set),
     list_request crt :: (if _debug self then [Print already_set] else [])) /\
  write_calls (snd (run (set_certificate_for_service self w cert_id service_name)))
  = [].
Proof.
  intros Hreads Hin Hserves Hid Hagree.
  assert (Hscan : scan_certs certs service_name = cert_id).
  { rewrite <- Hid. apply scan_certs_bound; [exact Hin | exact Hserves |].
    intros cert' Hin' Hserves'. rewrite Hid. exact (Hagree cert' Hin' Hserves'). }
  rewrite (bind_run_already_bound self w svc crt certs cert_id service_name
             Hreads Hscan).
  split; [reflexivity |]. destruct (_debug self); reflexivity.
Qed.

Lemma bind_same_certificate_witness :
  let self := sample_self 7 in
  let other := {| Registry.id := "333"; Registry.services := [ftps] |} in
  let bound := {| Registry.id := "111"; Registry.services := [ftps; desktop] |} in
  let certs := [other; bound; other] in
  let w := sample_world certs (sample_response 200 ok_body) in
  reads_registry self w sample_info sample_info certs /\
  In bound certs /\
  serves "DSM Desktop Service" bound = true /\
  (forall cert', In cert' certs ->
                 serves "DSM Desktop Service" cert' = true ->
                 Registry.id cert' = "111") /\
  run (set_certificate_for_service self w "111" "DSM Desktop Service")
  = (Return (200, JStr already_set), [list_request sample_info; Print already_set]) /\
  write_calls
    (snd (run (set_certificate_for_service self w "111" "DSM Desktop Service")))
  = [].
Proof.
  intros self other bound certs w.
  assert (Hreads : reads_registry self w sample_info sample_info certs)
    by (repeat split; reflexivity).
  assert (Hin : In bound certs) by (right; left; reflexivity).
  assert (Hserves : serves "DSM Desktop Service" bound = true) by reflexivity.
  assert (Hagree : forall cert', In cert' certs ->
                     serves "DSM Desktop Service" cert' = true ->
                     Registry.id cert' = "111").
  { intros cert' [<- | [<- | [<- | []]]]; try reflexivity; discriminate. }
  split; [exact Hreads |]. split; [exact Hin |]. split; [exact Hserves |].
  split; [exact Hagree |].
  exact (bind_same_certificate_writes_nothing self w sample_info sample_info
           certs bound "111" "DSM Desktop Service" Hreads Hin Hserves
           eq_refl Hagree).
Defined.

(** C2, amended: for the one supported service, "DSM Desktop Service", when
    the scan finds a certificate other than the requested one (or none),
    exactly one request that can change the appliance is sent, the POST of
    the binding update; its [settings] field is the compact JSON of a
    one-element list whose element has the descriptor under [service], the
    scanned certificate under [old_id] and the requested one under [id].
    [old_id] is empty when no certificate claims the service, and the
    claimants' certificate when they agree on one; the text of the settings
    tells both certificates apart from any others. *)
Theorem bind_other_certificate_writes_once (self : t) (w : world)
  (svc crt : api_info) (certs : list Registry.cert) (cert_id : string) :
  reads_registry self w svc crt certs ->
  scan_certs certs "DSM Desktop Service" <> cert_id ->
  let tr := snd (run (set_certificate_for_service self w cert_id
                        "DSM Desktop Service")) in
  let old_certid := scan_certs certs "DSM Desktop Service" in
  write_calls tr = [bind_request self svc old_certid cert_id] /\
  submitted_settings tr
  = [dumps_compact
       (JArr [JObj [("service", JObj (descriptor (_version (session self))));
                    ("old_id", JStr old_certid);
                    ("id", JStr cert_id)]])] /\
  ((forall cert, In cert certs -> serves "DSM Desktop Service" cert = false) ->
   old_certid = "") /\
  (forall cert,
     In cert certs -> serves "DSM Desktop Service" cert = true ->
     (forall cert', In cert' certs -> serves "DSM Desktop Service" cert' = true ->
                    Registry.id cert' = Registry.id cert) ->
     old_certid = Registry.id cert) /\
  (forall old' id',
     submitted_settings tr
     = [bind_settings (descriptor (_version (session self))) old' id'] ->
     old' = old_certid /\ id' = cert_id).
Proof.
  intros Hreads Hscan tr old_certid.
  destruct (bind_submit_trace self w svc crt certs cert_id Hreads Hscan)
    as [Hwrites Hsettings].
  split; [exact Hwrites |]. split; [exact Hsettings |].
  split; [apply scan_certs_unbound |]. split; [apply scan_certs_bound |].
  intros old' id' Htold. subst tr. rewrite Hsettings in Htold.
  pose proof (f_equal (hd "") Htold) as Heq. cbn [hd] in Heq.
  apply bind_settings_inj in Heq as [Hold Hid].
  split; [symmetry; exact Hold | symmetry; exact Hid].
Qed.

Lemma bind_other_certificate_witness :
  let self := sample_self 7 in
  let w := sample_world sample_certs (sample_response 200 ok_body) in
  let tr := snd (run (set_certificate_for_service self w "222"
                        "DSM Desktop Service")) in
  reads_registry self w sample_info sample_info sample_certs /\
  scan_certs sample_certs "DSM Desktop Service" <> "222" /\
  write_calls tr = [bind_request self sample_info "111" "222"] /\
  submitted_settings tr
  = [dumps_compact
       (JArr [JObj [("service", JObj (base_fields ++ dsm7_fields));
                    ("old_id", JStr "111");
                    ("id", JStr "222")]])].
Proof.
  intros self w tr.
  assert (Hreads : reads_registry self w sample_info sample_info sample_certs)
    by (repeat split; reflexivity).
  assert (Hscan : scan_certs sample_certs "DSM Desktop Service" <> "222")
    by discriminate.
  split; [exact Hreads |]. split; [exact Hscan |].
  destruct (bind_other_certificate_writes_once self w sample_info sample_info
              sample_certs "222" Hreads Hscan) as (Hw & Hs & _).
  split; [exact Hw | exact Hs].
Defined.

(** C2 as stated fails for a service outside the table: the certificate
    bound to "FTPS" is "111", "222" is requested, and the call raises
    [KeyError] after the list read, without any write. *)
Lemma bind_unsupported_service_writes_nothing :
  let w := sample_world sample_certs (sample_response 200 ok_body) in
  scan_certs sample_certs "FTPS" = "111" /\
  "111" <> "222" /\
  run (set_certificate_for_service (sample_self 7) w "222" "FTPS")
  = (Raise (KeyError "FTPS"), [list_request sample_info]) /\
  length (write_calls
            (snd (run (set_certificate_for_service (sample_self 7) w "222" "FTPS"))))
  <> 1%nat.
Proof.
  cbv zeta. split; [reflexivity |]. split; [discriminate |].
  split; [reflexivity |]. vm_compute. discriminate.
Qed.

(** C3, amended: the descriptor of the binding update carries
    [multiple_cert:true] and [user_setable:true] if and only if the major
    version of the appliance is exactly 7; for any other version it is the
    six base fields and nothing else. *)
Theorem bind_descriptor_by_version (self : t) (w : world)
  (svc crt : api_info) (certs : list Registry.cert) (cert_id : string) :
  reads_registry self w svc crt certs ->
  scan_certs certs "DSM Desktop Service" <> cert_id ->
  let version := _version (session self) in
  let d := descriptor version in
  submitted_settings
    (snd (run (set_certificate_for_service self w cert_id "DSM Desktop Service")))
  = [bind_settings d (scan_certs certs "DSM Desktop Service") cert_id] /\
  (has_dsm7_fields d <-> version = 7) /\
  (version = 7 -> d = base_fields ++ dsm7_fields) /\
  (version <> 7 ->
   d = base_fields /\
   dict_has d "multiple_cert" = false /\ dict_has d "user_setable" = false).
Proof.
  intros Hreads Hscan version d.
  split.
  { exact (proj2 (bind_submit_trace self w svc crt certs cert_id Hreads Hscan)). }
  subst d. unfold descriptor.
  destruct (Z.eqb_spec version 7) as [E | E].
  - repeat split; try reflexivity; intros; congruence.
  - rewrite app_nil_r. repeat split; try reflexivity; try congruence.
    intros [H _]. discriminate H.
Qed.

Lemma bind_descriptor_witness :
  let self := sample_self 6 in
  let w := sample_world sample_certs (sample_response 200 ok_body) in
  reads_registry self w sample_info sample_info sample_certs /\
  scan_certs sample_certs "DSM Desktop Service" <> "222" /\
  submitted_settings
    (snd (run (set_certificate_for_service self w "222" "DSM Desktop Service")))
  = [bind_settings base_fields "111" "222"] /\
  ~ has_dsm7_fields (descriptor 6).
Proof.
  intros self w.
  assert (Hreads : reads_registry self w sample_info sample_info sample_certs)
    by (repeat split; reflexivity).
  assert (Hscan : scan_certs sample_certs "DSM Desktop Service" <> "222")
    by discriminate.
  split; [exact Hreads |]. split; [exact Hscan |].
  destruct (bind_descriptor_by_version self w sample_info sample_info
              sample_certs "222" Hreads Hscan) as (Hs & Hiff & _ & _).
  split; [exact Hs |].
  intros Hd. apply Hiff in Hd. discriminate Hd.
Defined.

(** C3 as stated fails above 7: on an appliance of major version 8 the
    settings submitted carry the six base fields only; neither attribute
    occurs in them. *)
Lemma bind_version_8_descriptor_is_bare :
  let self := sample_self 8 in
  let w := sample_world sample_certs (sample_response 200 ok_body) in
  _version (session self) >= 7 /\
  submitted_settings
    (snd (run (set_certificate_for_service self w "222" "DSM Desktop Service")))
  = [bind_settings base_fields "111" "222"] /\
  String.index 0 "multiple_cert" (bind_settings base_fields "111" "222") = None /\
  String.index 0 "user_setable" (bind_settings base_fields "111" "222") = None.
Proof.
  cbv zeta. split; [cbn; lia |]. repeat split; vm_compute; reflexivity.
Qed.

(** C4, where the code departs from it: with two certificates claiming the
    service, the first match in registry order is "111", but the scan ends
    on "222", the last one, because its [break] leaves the inner loop only.
    So a request for "222" is taken as already bound and nothing is
    written, and a request for "111" is submitted with [old_id] "222". On
    every snapshot the scan gives the last match. *)
Theorem scan_keeps_last_claimant :
  let self := sample_self 7 in
  let w := sample_world two_claimants (sample_response 200 ok_body) in
  first_match "DSM Desktop Service" two_claimants = Some "111" /\
  scan_certs two_claimants "DSM Desktop Service" = "222" /\
  run (set_certificate_for_service self w "222" "DSM Desktop Service")
  = (Return (200, JStr already_set),
     [list_request sample_info; Print already_set]) /\
  submitted_settings
    (snd (run (set_certificate_for_service self w "111" "DSM Desktop Service")))
  = [bind_settings (base_fields ++ dsm7_fields) "222" "111"] /\
  (forall certs service_name,
     scan_certs certs service_name
     = match last_match service_name certs with
       | Some i => i
       | None => ""
       end).
Proof.
  cbv zeta. split; [reflexivity |]. split; [reflexivity |].
  split; [vm_compute; reflexivity |]. split; [vm_compute; reflexivity |].
  exact scan_certs_last_match.
Qed.

(** C10, amended: on the already-bound branch the call returns exactly
    [(200, "Certificate already set, aborting")], a string in the second
    place. On the other branch whatever the call returns is the status code
    and the decoded body of the response to the binding update, whatever
    that body is; after a 200 it is a dictionary. So the other branch never
    returns the pair of the already-bound branch, and among the results
    with status 200 the string marks the already-bound outcome; under
    another status a submitted update can return a string too. *)
Theorem already_bound_returns_the_message (self : t) (w : world)
  (svc crt : api_info) (certs : list Registry.cert)
  (cert_id service_name : string) :
  reads_registry self w svc crt certs ->
  (scan_certs certs service_name = cert_id ->
   fst (run (set_certificate_for_service self w cert_id service_name))
   = Return (200, JStr "Certificate already set, aborting")) /\
  (scan_certs certs service_name <> cert_id ->
   forall (status : Z) (body : jval),
     fst (run (set_certificate_for_service self w cert_id service_name))
     = Return (status, body) ->
     exists r,
       bind_answer self w svc (scan_certs certs service_name) cert_id = Return r /\
       status = status_code r /\ json r = Some body /\
       (status = 200 -> exists members, body = JObj members)) /\
  (scan_certs certs service_name <> cert_id ->
   fst (run (set_certificate_for_service self w cert_id service_name))
   <> Return (200, JStr "Certificate already set, aborting")).
Proof.
  intros Hreads.
  assert (Hother : scan_certs certs service_name <> cert_id ->
            forall (status : Z) (body : jval),
              fst (run (set_certificate_for_service self w cert_id service_name))
              = Return (status, body) ->
              exists r,
                bind_answer self w svc (scan_certs certs service_name) cert_id
                = Return r /\
                status = status_code r /\ json r = Some body /\
                (status = 200 -> exists members, body = JObj members)).
  { intros Hscan status body.
    destruct (String.eqb_spec service_name "DSM Desktop Service") as [-> | Hname].
    + rewrite (bind_run_submit self w svc crt certs cert_id Hreads Hscan).
      destruct (bind_answer self w svc _ cert_id) as [r | e]; [| discriminate].
      intros Hret. exists r. split; [reflexivity |].
      exact (conclude_returns self r _ _ status body Hret).
    + rewrite (bind_run_unsupported self w svc crt certs cert_id service_name
                 Hreads Hscan Hname).
      discriminate. }
  split; [| split].
  - intros Hscan.
    rewrite (bind_run_already_bound self w svc crt certs cert_id service_name
               Hreads Hscan).
    reflexivity.
  - exact Hother.
  - intros Hscan Hret.
    destruct (Hother Hscan _ _ Hret) as (r & _ & _ & _ & Hdict).
    destruct (Hdict eq_refl) as (members & Hmembers). discriminate Hmembers.
Qed.

Lemma already_bound_message_witness :
  let self := sample_self 7 in
  let w := sample_world sample_certs (sample_response 200 ok_body) in
  reads_registry self w sample_info sample_info sample_certs /\
  fst (run (set_certificate_for_service self w "111" "DSM Desktop Service"))
  = Return (200, JStr "Certificate already set, aborting") /\
  fst (run (set_certificate_for_service self w "222" "DSM Desktop Service"))
  = Return (200, ok_body).
Proof.
  intros self w.
  assert (Hreads : reads_registry self w sample_info sample_info sample_certs)
    by (repeat split; reflexivity).
  split; [exact Hreads |].
  split; [| reflexivity].
  apply (already_bound_returns_the_message self w sample_info sample_info
           sample_certs "111" "DSM Desktop Service" Hreads).
  reflexivity.
Defined.

(** C10 as stated fails: a submitted update whose response has status 500
    and a body that is a JSON string returns that string in the second
    place, not a dictionary; here the very text of the already-bound
    message. *)
Lemma submitted_update_can_return_a_string :
  let self := sample_self 7 in
  let r := {| status_code := 500; content := []; json := Some (JStr already_set) |} in
  let w := sample_world sample_certs r in
  let call := run (set_certificate_for_service self w "222" "DSM Desktop Service") in
  scan_certs sample_certs "DSM Desktop Service" <> "222" /\
  write_calls (snd call) = [bind_request self sample_info "111" "222"] /\
  fst call = Return (500, JStr "Certificate already set, aborting").
Proof.
  cbv zeta. split; [discriminate |]. split; vm_compute; reflexivity.
Qed.

(** * Export *)

(** C5: whatever response the export request gets, [export_cert] returns:
    [None] when the status is not 200, and when it is 200 a [BytesIO] over
    the whole body of the response, at position 0. *)
Theorem export_cert_result (self : t) (w : world) (info : api_info)
  (cert_id : string) (r : response) :
  app_api_list (session self) !! transfer_api = Some info ->
  http_get w (export_url self info cert_id)
    (verify_cert_enabled (session self)) (token_header self) = Return r ->
  (status_code r <> 200 ->
   fst (run (export_cert self w cert_id)) = Return None) /\
  (status_code r = 200 ->
   fst (run (export_cert self w cert_id))
   = Return (Some {| getvalue := content r; tell := 0 |})) /\
  snd (run (export_cert self w cert_id))
  = [Get (export_url self info cert_id) (verify_cert_enabled (session self))
       (token_header self)].
Proof.
  intros Hinfo Hget.
  unfold transfer_api in Hinfo. unfold export_url, token_header in *.
  unfold export_cert. call_unfold. rewrite Hinfo, Hget. repeat split.
  - intros Hst. apply Z.eqb_neq in Hst. rewrite Hst. reflexivity.
  - intros Hst. rewrite Hst. reflexivity.
  - destruct (status_code r =? 200); reflexivity.
Qed.

Lemma export_cert_witness :
  let self := sample_self 7 in
  fst (run (export_cert self (sample_world [] (sample_response 404 JNull)) "abc"))
  = Return None /\
  fst (run (export_cert self (sample_world [] (sample_response 200 JNull)) "abc"))
  = Return (Some {| getvalue := [Byte.x50; Byte.x4b]; tell := 0 |}).
Proof.
  intros self. split.
  - apply (export_cert_result self (sample_world [] (sample_response 404 JNull))
             sample_info "abc" (sample_response 404 JNull));
      [reflexivity | reflexivity | discriminate].
  - apply (export_cert_result self (sample_world [] (sample_response 200 JNull))
             sample_info "abc" (sample_response 200 JNull));
      reflexivity.
Defined.

(** * Upload *)

Lemma conclude_posted_files (self : t) (r : response) (line : string)
  (tr : list event) :
  posted_files (snd (conclude self r line tr)) = posted_files tr.
Proof.
  destruct (conclude_trace self r line tr) as [-> | ->]; [reflexivity |].
  unfold posted_files. rewrite flat_map_app. cbn. apply app_nil_r.
Qed.

Lemma str_truthy_true (s : string) : str_truthy s = true <-> s <> "".
Proof.
  unfold str_truthy. destruct (String.eqb_spec s ""); cbn; split; congruence.
Qed.


Lemma conclude_fst (self : t) (r : response) (line : string) (tr : list event) :
  fst (conclude self r line tr) = fst (conclude self r line []).
Proof.
  unfold conclude. call_unfold.
  destruct (status_code r =? 200); destruct (json r) as [body |]; try reflexivity.
  destruct (getitem body "success") as [flag |]; [| reflexivity].
  destruct (truthy flag); [destruct (_debug self) |]; reflexivity.
Qed.

(** When the endpoint is known and the files can be opened, one request is
    sent, with the parts of [upload_parts], and the call ends as [conclude]
    does on the response. *)
Lemma upload_run (self : t) (w : world) (info : api_info)
  (serv_key ser_cert : string) (ca_cert : option string)
  (set_as_default : bool) (cert_id desc : option string)
  (files : list (string * file_part)) :
  app_api_list (session self) !! transfer_api = Some info ->
  (forall name, abspath w name <> "") ->
  upload_parts w serv_key ser_cert ca_cert = Some files ->
  let call := run (upload_cert self w serv_key ser_cert ca_cert set_as_default
                     cert_id desc) in
  posted_files (snd call) = [files] /\
  fst call
  = match upload_answer self w info set_as_default cert_id desc files with
    | Return r => fst (conclude self r "Certificate upload successful." [])
    | Raise e => Raise e
    end.
Proof.
  intros Hinfo Habs Hparts call. subst call.
  unfold transfer_api in Hinfo.
  unfold upload_answer, import_url, upload_data, token_header.
  unfold upload_parts, part in Hparts.
  unfold upload_cert, with_open. call_unfold. rewrite Hinfo.
  destruct (file_bytes w (abspath w serv_key)) as [k |]; [| discriminate].
  destruct (file_bytes w (abspath w ser_cert)) as [c |]; [| discriminate].
  cbn [option_map] in Hparts.
  destruct (opt_truthy cert_id).
  all: destruct ca_cert as [name |];
    [destruct (str_truthy name) eqn:Ename;
     [rewrite (proj2 (str_truthy_true _) (Habs name));
      destruct (file_bytes w (abspath w name)) as [i |]; [| discriminate] |] |].
  all: cbn [option_map] in Hparts; injection Hparts as <-.
  all: cbn [dict_set String.eqb Ascii.eqb Bool.eqb].
  all: match goal with
       | |- context [http_post ?a ?b ?c ?d ?e ?f ?g] =>
           destruct (http_post a b c d e f g)
       end.
  all: rewrite ?conclude_posted_files.
  all: split; [reflexivity | try reflexivity].
  all: apply conclude_fst.
Qed.




(** C9, amended: an upload whose response has a status other than 200 and a
    body that decodes, or whose decoded body signals failure
    ([success:false], under any status), returns normally, with the status
    code and the decoded body as they came; so does one with status 200
    whose body carries any ['success'] member. No exception reports a remote
    failure. *)
Theorem upload_returns_status_and_body (self : t) (w : world) (info : api_info)
  (serv_key ser_cert : string) (ca_cert : option string)
  (set_as_default : bool) (cert_id desc : option string)
  (files : list (string * file_part)) (r : response) (body : jval) :
  app_api_list (session self) !! transfer_api = Some info ->
  (forall name, abspath w name <> "") ->
  upload_parts w serv_key ser_cert ca_cert = Some files ->
  upload_answer self w info set_as_default cert_id desc files = Return r ->
  json r = Some body ->
  let result := fst (run (upload_cert self w serv_key ser_cert ca_cert
                            set_as_default cert_id desc)) in
  (status_code r <> 200 -> result = Return (status_code r, body)) /\
  (getitem body "success" = Return (JBool false) ->
   result = Return (status_code r, body)) /\
  (status_code r = 200 ->
   forall flag, getitem body "success" = Return flag ->
                result = Return (200, body)).
Proof.
  intros Hinfo Habs Hparts Hanswer Hbody result. subst result.
  destruct (upload_run self w info serv_key ser_cert ca_cert set_as_default
              cert_id desc files Hinfo Habs Hparts) as [_ ->].
  rewrite Hanswer. split; [| split].
  - intros Hst. rewrite (conclude_not_200 self r _ [] body Hst Hbody). reflexivity.
  - intros Hflag. destruct (Z.eq_dec (status_code r) 200) as [Hst | Hst].
    + rewrite (conclude_200 self r _ [] body _ Hst Hbody Hflag), Hst.
      reflexivity.
    + rewrite (conclude_not_200 self r _ [] body Hst Hbody). reflexivity.
  - intros Hst flag Hflag.
    rewrite (conclude_200 self r _ [] body flag Hst Hbody Hflag). reflexivity.
Qed.

Lemma upload_returns_witness :
  let self := sample_self 7 in
  let r := sample_response 403 failed_body in
  let w := sample_world [] r in
  (forall name, abspath w name <> "") /\
  fst (run (upload_cert self w "server.key" "server.crt" (Some "ca.pem") true
              (Some "abc") None))
  = Return (403, failed_body).
Proof.
  intros self r w.
  assert (Habs : forall name, abspath w name <> "") by (intros name; discriminate).
  split; [exact Habs |].
  refine (proj1 (upload_returns_status_and_body self w sample_info "server.key"
                   "server.crt" (Some "ca.pem") true (Some "abc") None _ r
                   failed_body _ Habs _ _ _) _);
    [reflexivity | reflexivity | reflexivity | reflexivity | discriminate].
Defined.

(** C9 as stated fails: a response with status 500, and a response with
    status 200 whose body says [success:false], both make [upload_cert]
    return normally. *)
Lemma upload_failure_returns_normally :
  let self := sample_self 7 in
  fst (run (upload_cert self (sample_world [] (sample_response 500 failed_body))
              "server.key" "server.crt" None true None None))
  = Return (500, failed_body) /\
  fst (run (upload_cert self (sample_world [] (sample_response 200 failed_body))
              "server.key" "server.crt" None true None None))
  = Return (200, failed_body) /\
  getitem failed_body "success" = Return (JBool false).
Proof.
  cbv zeta. repeat split; vm_compute; reflexivity.
Qed.

(** * The registry requests *)

Lemma base_run (self : t) (w : world) (crt : api_info) (method : string)
  (cert_id : option string) (ids : option ids_arg) (req_param : fields) :
  gen_list self !! crt_api = Some crt ->
  existsb (String.eqb method) ["list"; "set"; "delete"] = true ->
  (if String.eqb "set" method && opt_truthy cert_id then
     dict_update [("version", "1"); ("method", method)]
       [("as_default", "true");
        ("desc", String dquote (String dquote ""));
        ("id", String dquote (fmt cert_id +:+ String dquote ""))]
   else if String.eqb "delete" method && ids_truthy ids then
     dict_update [("version", "1"); ("method", method)]
       [("ids", dumps_default (ids_json ids))]
   else [("version", "1"); ("method", method)]) = req_param ->
  run (_base_certificate_methods self w method cert_id ids)
  = (request_data w crt_api (path crt) req_param,
     [RequestData crt_api (path crt) req_param]).
Proof.
  intros Hcrt Hmethod Hparam. unfold crt_api in Hcrt.
  unfold _base_certificate_methods. rewrite Hmethod. cbn [negb].
  call_unfold. rewrite Hcrt, Hparam.
  destruct (request_data w _ _ _); reflexivity.
Qed.

(** C8, amended: [set_default_cert] checks nothing; it always submits one
    [set] request and returns its answer as it comes. With a missing or
    empty identifier the request carries the version and the method only;
    with a non-empty one also [as_default], [desc] and the quoted [id]. *)
Theorem set_default_cert_submits (self : t) (w : world) (crt : api_info)
  (cert_id : option string) :
  gen_list self !! crt_api = Some crt ->
  run (set_default_cert self w cert_id)
  = (request_data w crt_api (path crt) (set_params cert_id),
     [RequestData crt_api (path crt) (set_params cert_id)]) /\
  (opt_truthy cert_id = false ->
   set_params cert_id = [("version", "1"); ("method", "set")]).
Proof.
  intros Hcrt. split.
  - apply base_run; [exact Hcrt | reflexivity |].
    unfold set_params. destruct cert_id as [s |]; [| reflexivity].
    cbn [opt_truthy andb String.eqb Ascii.eqb Bool.eqb].
    destruct (str_truthy s); reflexivity.
  - unfold set_params. destruct cert_id as [s |]; [| reflexivity].
    cbn. intros ->. reflexivity.
Qed.

Lemma set_default_cert_witness :
  let self := sample_self 7 in
  let w := sample_world sample_certs (sample_response 200 ok_body) in
  run (set_default_cert self w (Some "abc"))
  = (Return (Registry.Dict None),
     [RequestData crt_api "entry.cgi"
        [("version", "1"); ("method", "set"); ("as_default", "true");
         ("desc", quoted ""); ("id", quoted "abc")]]).
Proof.
  intros self w.
  exact (proj1 (set_default_cert_submits self w sample_info (Some "abc")
                  eq_refl)).
Defined.

(** C8 as stated fails: with the empty identifier, and with none, the call
    raises nothing and submits a [set] request. *)
Lemma set_default_cert_empty_id_submits :
  let self := sample_self 7 in
  let w := sample_world sample_certs (sample_response 200 ok_body) in
  run (set_default_cert self w (Some ""))
  = (Return (Registry.Dict None),
     [RequestData crt_api "entry.cgi" [("version", "1"); ("method", "set")]]) /\
  run (set_default_cert self w None)
  = (Return (Registry.Dict None),
     [RequestData crt_api "entry.cgi" [("version", "1"); ("method", "set")]]).
Proof.
  cbv zeta. split; vm_compute; reflexivity.
Qed.

(** C7, amended: [delete_certificate] turns a single string into the
    one-element list of it and leaves a list as it is; when the collection
    is not empty, the request carries it under [ids] as one string, the JSON
    text of the array of its elements in their order, from which a reader
    gets the collection back. When the list is empty the request is
    submitted without an [ids] field. *)
Theorem delete_certificate_submits (self : t) (w : world) (crt : api_info)
  (ids : ids_arg) :
  gen_list self !! crt_api = Some crt ->
  run (delete_certificate self w ids)
  = (request_data w crt_api (path crt) (delete_params ids),
     [RequestData crt_api (path crt) (delete_params ids)]) /\
  (forall s, ids = IdStr s -> id_collection ids = [s]) /\
  (forall l, ids = IdList l -> id_collection ids = l) /\
  (id_collection ids <> [] ->
   dict_get (delete_params ids) "ids"
   = Some (dumps_default (JArr (map JStr (id_collection ids))))) /\
  (id_collection ids = [] -> dict_get (delete_params ids) "ids" = None) /\
  (forall text, dict_get (delete_params ids) "ids" = Some text ->
                loads_strings text = Some (id_collection ids)).
Proof.
  intros Hcrt. split; [| repeat split].
  - unfold delete_certificate. apply base_run; [exact Hcrt | reflexivity |].
    unfold delete_params. destruct ids as [s | [| x l]]; reflexivity.
  - intros s ->. reflexivity.
  - intros l ->. reflexivity.
  - unfold delete_params. destruct (id_collection ids); [congruence | reflexivity].
  - unfold delete_params. intros ->. reflexivity.
  - unfold delete_params. intros text.
    destruct (id_collection ids) as [| x l]; [discriminate |].
    intros [= <-]. exact (loads_dumps_strings (x :: l)).
Qed.

Lemma delete_certificate_witness :
  let self := sample_self 7 in
  let w := sample_world sample_certs (sample_response 200 ok_body) in
  run (delete_certificate self w (IdList ["b"; "a"; "b"]))
  = (Return (Registry.Dict None),
     [RequestData crt_api "entry.cgi"
        [("version", "1"); ("method", "delete");
         ("ids", "[" +:+ quoted "b" +:+ ", " +:+ quoted "a" +:+ ", "
                 +:+ quoted "b" +:+ "]")]]) /\
  run (delete_certificate self w (IdStr "a"))
  = run (delete_certificate self w (IdList ["a"])).
Proof.
  intros self w. split.
  - exact (proj1 (delete_certificate_submits self w sample_info
                    (IdList ["b"; "a"; "b"]) eq_refl)).
  - reflexivity.
Defined.

(** C7 as stated fails for the empty list: the request goes out with no
    [ids] field at all. *)
Lemma delete_empty_list_sends_no_ids :
  let self := sample_self 7 in
  let w := sample_world sample_certs (sample_response 200 ok_body) in
  run (delete_certificate self w (IdList []))
  = (Return (Registry.Dict None),
     [RequestData crt_api "entry.cgi" [("version", "1"); ("method", "delete")]]).
Proof.
  cbv zeta. vm_compute. reflexivity.
Qed.

(** * Further properties *)

(** ** The scan *)

(** X1: the scan gives the empty string when no certificate of the snapshot
    claims the service, and otherwise the ID of a certificate of the
    snapshot that claims it. *)
Theorem scan_certs_picks_a_claimant (certs : list Registry.cert)
  (service_name : string) :
  (existsb (serves service_name) certs = false ->
   scan_certs certs service_name = "") /\
  (existsb (serves service_name) certs = true ->
   exists cert, In cert certs /\ serves service_name cert = true /\
                scan_certs certs service_name = Registry.id cert).
Proof.
  split.
  - intros Hnone. apply scan_certs_unbound. intros cert Hin.
    destruct (serves service_name cert) eqn:E; [| reflexivity].
    assert (existsb (serves service_name) certs = true)
      by (apply existsb_exists; eauto).
    congruence.
  - intros Hsome. rewrite scan_certs_last_match.
    destruct (last_match service_name certs) as [i |] eqn:E.
    + apply last_match_found in E as (cert & Hin & Hs & <-). eauto.
    + apply existsb_exists in Hsome as (cert & Hin & Hs).
      unfold last_match, first_match in E.
      destruct (find (serves service_name) (rev certs)) eqn:F; [discriminate |].
      apply in_rev in Hin. rewrite (find_none _ _ F cert Hin) in Hs.
      discriminate.
Qed.

Lemma scan_picks_witness :
  existsb (serves "FTPS") sample_certs = true /\
  exists cert, In cert sample_certs /\ serves "FTPS" cert = true /\
               scan_certs sample_certs "FTPS" = Registry.id cert.
Proof.
  split; [reflexivity |].
  apply (scan_certs_picks_a_claimant sample_certs "FTPS"). reflexivity.
Defined.

(** X2: the certificates after the last claimant, and those that do not
    claim the service, do not count: the scan of two snapshots put end to
    end is the scan of the second when it has a claimant, of the first
    otherwise; and dropping the certificates that do not claim the service
    leaves the result as it is. *)
Theorem scan_certs_only_claimants_count (certs more : list Registry.cert)
  (service_name : string) :
  scan_certs (certs ++ more) service_name
  = (if existsb (serves service_name) more
     then scan_certs more service_name
     else scan_certs certs service_name) /\
  scan_certs (List.filter (serves service_name) certs) service_name
  = scan_certs certs service_name.
Proof.
  split.
  - induction more as [| cert more IH] using rev_ind.
    + rewrite app_nil_r. reflexivity.
    + rewrite app_assoc, !scan_certs_snoc, existsb_app. cbn [existsb].
      rewrite orb_false_r.
      destruct (serves service_name cert).
      * rewrite orb_true_r. reflexivity.
      * rewrite orb_false_r. exact IH.
  - induction certs as [| cert certs IH] using rev_ind; [reflexivity |].
    rewrite List.filter_app, scan_certs_snoc. cbn [List.filter].
    destruct (serves service_name cert) eqn:E.
    + rewrite scan_certs_snoc, E. reflexivity.
    + rewrite app_nil_r. exact IH.
Qed.

(** ** The registry requests *)

Lemma supported_method (method : string) :
  existsb (String.eqb method) ["list"; "set"; "delete"] = true <->
  In method ["list"; "set"; "delete"].
Proof.
  rewrite existsb_exists. split.
  - intros (m & Hin & Heq). apply String.eqb_eq in Heq. subst m. exact Hin.
  - intros Hin. exists method. split; [exact Hin | apply String.eqb_refl].
Qed.

(** X3: when [_base_certificate_methods] cannot dispatch, nothing is sent.
    For a method other than [list], [set] and [delete] it returns the text
    "Method ... no supported." without raising and without looking the
    endpoint up; for one of the three, when the endpoint table has no entry
    for the registry API, it raises [KeyError]. *)
Theorem base_cannot_dispatch_sends_nothing (self : t) (w : world)
  (method : string) (cert_id : option string) (ids : option ids_arg) :
  (~ In method ["list"; "set"; "delete"] ->
   run (_base_certificate_methods self w method cert_id ids)
   = (Return (Registry.Text ("Method " +:+ method +:+ " no supported.")), [])) /\
  (In method ["list"; "set"; "delete"] ->
   gen_list self !! crt_api = None ->
   run (_base_certificate_methods self w method cert_id ids)
   = (Raise (KeyError crt_api), [])).
Proof.
  unfold _base_certificate_methods. split.
  - intros Hnot.
    destruct (existsb (String.eqb method) ["list"; "set"; "delete"]) eqn:E;
      [apply supported_method in E; contradiction | reflexivity].
  - intros Hin Hnone. apply supported_method in Hin. rewrite Hin.
    unfold crt_api in Hnone. cbn [negb]. call_unfold. rewrite Hnone.
    reflexivity.
Qed.

Lemma base_cannot_dispatch_witness :
  run (_base_certificate_methods (sample_self 7)
         (sample_world [] (sample_response 200 ok_body)) "import" (Some "abc") None)
  = (Return (Registry.Text "Method import no supported."), []).
Proof.
  apply (base_cannot_dispatch_sends_nothing (sample_self 7)
           (sample_world [] (sample_response 200 ok_body)) "import" (Some "abc")
           None).
  cbn. intros [H | [H | [H | []]]]; discriminate H.
Defined.

(** X4: for a supported method and a known endpoint,
    [_base_certificate_methods] sends exactly one request and hands its
    answer, or its exception, back untouched. The parameters begin with
    version 1 and the method; [id] is among them only for [set] with a
    non-empty identifier, [ids] only for [delete] with a non-empty
    collection; [list] sends nothing else, whatever else it is given. *)
Theorem base_request_parameters (self : t) (w : world) (crt : api_info)
  (method : string) (cert_id : option string) (ids : option ids_arg) :
  gen_list self !! crt_api = Some crt ->
  In method ["list"; "set"; "delete"] ->
  exists req_param,
    run (_base_certificate_methods self w method cert_id ids)
    = (request_data w crt_api (path crt) req_param,
       [RequestData crt_api (path crt) req_param]) /\
    firstn 2 req_param = [("version", "1"); ("method", method)] /\
    (dict_has req_param "id" = true <->
     method = "set" /\ opt_truthy cert_id = true) /\
    (dict_has req_param "ids" = true <->
     method = "delete" /\ ids_truthy ids = true) /\
    (method = "list" -> req_param = list_params).
Proof.
  intros Hcrt Hin.
  eexists. split.
  - apply (base_run self w crt method cert_id ids _ Hcrt);
      [apply supported_method; exact Hin | reflexivity].
  - destruct Hin as [<- | [<- | [<- | []]]];
      cbn [String.eqb Ascii.eqb Bool.eqb andb].
    + repeat split; try reflexivity; try discriminate;
        intros [H _]; discriminate H.
    + destruct (opt_truthy cert_id); repeat split; try reflexivity;
        try discriminate; try (intros [H _]; discriminate H);
        intros [_ H]; discriminate H.
    + destruct (ids_truthy ids); repeat split; try reflexivity;
        try discriminate; try (intros [H _]; discriminate H);
        intros [_ H]; discriminate H.
Qed.

Lemma base_request_witness :
  let self := sample_self 7 in
  let w := sample_world sample_certs (sample_response 200 ok_body) in
  exists req_param,
    run (_base_certificate_methods self w "list" (Some "abc") (Some (IdList ["x"])))
    = (request_data w crt_api "entry.cgi" req_param,
       [RequestData crt_api "entry.cgi" req_param]) /\
    req_param = list_params.
Proof.
  intros self w.
  destruct (base_request_parameters self w sample_info "list" (Some "abc")
              (Some (IdList ["x"])) eq_refl (or_introl eq_refl))
    as (req_param & Hrun & _ & _ & _ & Hlist).
  exists req_param. split; [exact Hrun | exact (Hlist eq_refl)].
Defined.

Lemma delete_run (self : t) (w : world) (crt : api_info) (ids : ids_arg) :
  gen_list self !! crt_api = Some crt ->
  run (delete_certificate self w ids)
  = (request_data w crt_api (path crt) (delete_params ids),
     [RequestData crt_api (path crt) (delete_params ids)]).
Proof.
  intros Hcrt. unfold delete_certificate.
  apply base_run; [exact Hcrt | reflexivity |].
  unfold delete_params. destruct ids as [s | [| x l]]; reflexivity.
Qed.

(** X5: for identifiers whose characters are code points below 256 (the
    strings of this development), the request of [delete_certificate] tells
    the collection: two calls that send the same request were given the
    same identifiers in the same order (a single string counting as the
    list of it). Beyond the basic plane this fails in Python, where a
    surrogate pair and the code point it stands for are written alike. *)
Theorem delete_request_tells_the_collection (self : t) (w : world)
  (crt : api_info) (ids ids' : ids_arg) :
  gen_list self !! crt_api = Some crt ->
  snd (run (delete_certificate self w ids))
  = snd (run (delete_certificate self w ids')) ->
  id_collection ids = id_collection ids'.
Proof.
  intros Hcrt. rewrite !(delete_run self w crt) by exact Hcrt.
  cbn [snd]. intros Heq.
  assert (Hp : delete_params ids = delete_params ids') by congruence.
  unfold delete_params in Hp.
  destruct (id_collection ids) as [| x l], (id_collection ids') as [| x' l'];
    try reflexivity; try discriminate Hp.
  apply dumps_strings_inj. cbn [app] in Hp. congruence.
Qed.

Lemma delete_request_witness :
  let self := sample_self 7 in
  let w := sample_world [] (sample_response 200 ok_body) in
  id_collection (IdStr "a") = id_collection (IdList ["a"]).
Proof.
  intros self w.
  apply (delete_request_tells_the_collection self w sample_info (IdStr "a")
           (IdList ["a"])); reflexivity.
Defined.

(** ** The binding of a certificate: the other paths *)

Lemma conclude_result (self : t) (r : response) (line : string)
  (tr : list event) :
  fst (conclude self r line tr)
  = match json r with
    | None => Raise JSONDecodeError
    | Some body =>
        if status_code r =? 200 then
          match getitem body "success" with
          | Return _ => Return (status_code r, body)
          | Raise e => Raise e
          end
        else Return (status_code r, body)
    end.
Proof.
  unfold conclude. call_unfold.
  destruct (status_code r =? 200); destruct (json r) as [body |];
    try reflexivity.
  destruct (getitem body "success") as [flag | e]; [| reflexivity].
  destruct (truthy flag); [destruct (_debug self) |]; reflexivity.
Qed.

(** X6: when the registry cannot be read, [set_certificate_for_service]
    raises and writes nothing: [KeyError] for an endpoint missing from its
    table (before anything is sent), the exception of the list request
    itself, [TypeError] for a reply that is a text, [KeyError] for a reply
    without ['data'] or without ['certificates'] (after the list read
    only). *)
Theorem bind_unreadable_registry_raises (self : t) (w : world)
  (cert_id service_name : string) :
  let call := run (set_certificate_for_service self w cert_id service_name) in
  (app_api_list (session self) !! service_api = None ->
   call = (Raise (KeyError service_api), [])) /\
  (forall svc,
     app_api_list (session self) !! service_api = Some svc ->
     gen_list self !! crt_api = None ->
     call = (Raise (KeyError crt_api), [])) /\
  (forall svc crt,
     app_api_list (session self) !! service_api = Some svc ->
     gen_list self !! crt_api = Some crt ->
     match request_data w crt_api (path crt) list_params with
     | Raise e => call = (Raise e, [list_request crt])
     | Return (Registry.Text _) =>
         call = (Raise (TypeError "string indices must be integers"),
                 [list_request crt])
     | Return (Registry.Dict None) =>
         call = (Raise (KeyError "data"), [list_request crt])
     | Return (Registry.Dict (Some d)) =>
         Registry.certificates d = None ->
         call = (Raise (KeyError "certificates"), [list_request crt])
     end).
Proof.
  cbv zeta. repeat split.
  - intros Hnone. unfold service_api in Hnone.
    unfold set_certificate_for_service, run.
    unfold bind at 1, subscript at 1. rewrite Hnone. reflexivity.
  - intros svc Hsvc Hnone. unfold service_api in Hsvc. unfold crt_api in Hnone.
    unfold set_certificate_for_service, run.
    unfold bind at 1, subscript at 1. rewrite Hsvc.
    unfold ret at 1, bind at 1, list_cert, _base_certificate_methods.
    cbn [existsb String.eqb Ascii.eqb Bool.eqb negb orb andb opt_truthy
         ids_truthy].
    call_unfold. rewrite Hnone. reflexivity.
  - intros svc crt Hsvc Hcrt. unfold service_api in Hsvc.
    destruct (request_data w crt_api (path crt) list_params)
      as [[s | [d |]] | e] eqn:Hout.
    all: try intros Hnone.
    all: unfold set_certificate_for_service, run;
      unfold bind at 1, subscript at 1; rewrite Hsvc;
      unfold ret at 1, bind at 1;
      rewrite (list_cert_run self w crt [] Hcrt).
    all: rewrite Hout; try reflexivity.
    call_unfold. rewrite Hnone. reflexivity.
Qed.

Lemma bind_unreadable_witness :
  run (set_certificate_for_service
         (set_debug true
            {| session := {| app_api_list := ∅; _syno_token := "token";
                             _version := 7; verify_cert_enabled := true |};
               gen_list := sample_tables; base_url := "https://nas/";
               _sid := "sid"; _debug := true |})
         (sample_world sample_certs (sample_response 200 ok_body))
         "222" "DSM Desktop Service")
  = (Raise (KeyError service_api), []).
Proof.
  apply bind_unreadable_registry_raises. reflexivity.
Defined.

(** X7: for a service that is not in the table of descriptors the table is
    consulted only after the guard: when the scan finds the requested
    certificate the call still returns the already-set outcome, and
    otherwise it raises [KeyError] on the service name, after the list read
    and without any write. *)
Theorem bind_unsupported_service (self : t) (w : world) (svc crt : api_info)
  (certs : list Registry.cert) (cert_id service_name : string) :
  reads_registry self w svc crt certs ->
  service_name <> "DSM Desktop Service" ->
  run (set_certificate_for_service self w cert_id service_name)
  = if String.eqb (scan_certs certs service_name) cert_id then
      (Return (200, JStr already_set),
       list_request crt :: (if _debug self then [Print already_set] else []))
    else (Raise (KeyError service_name), [list_request crt]).
Proof.
  intros Hreads Hname.
  destruct (String.eqb_spec (scan_certs certs service_name) cert_id) as [E | E].
  - exact (bind_run_already_bound self w svc crt certs cert_id service_name
             Hreads E).
  - exact (bind_run_unsupported self w svc crt certs cert_id service_name
             Hreads E Hname).
Qed.

Lemma bind_unsupported_witness :
  let self := sample_self 7 in
  let w := sample_world sample_certs (sample_response 200 ok_body) in
  run (set_certificate_for_service self w "111" "FTPS")
  = (Return (200, JStr already_set), [list_request sample_info; Print already_set]) /\
  run (set_certificate_for_service self w "333" "FTPS")
  = (Raise (KeyError "FTPS"), [list_request sample_info]).
Proof.
  intros self w.
  assert (Hreads : reads_registry self w sample_info sample_info sample_certs)
    by (repeat split; reflexivity).
  split.
  - apply (bind_unsupported_service self w sample_info sample_info sample_certs
             "111" "FTPS" Hreads). discriminate.
  - apply (bind_unsupported_service self w sample_info sample_info sample_certs
             "333" "FTPS" Hreads). discriminate.
Defined.

Lemma nothing_written (tr : list event) (P : Prop) :
  write_calls tr = [] ->
  (length (write_calls tr) <= 1)%nat /\ (write_calls tr <> [] -> P).
Proof. intros ->. split; [cbn; lia | congruence]. Qed.

(** The traces of [set_certificate_for_service], on all its paths. *)
Lemma bind_trace_cases (self : t) (w : world) (cert_id service_name : string) :
  let tr := snd (run (set_certificate_for_service self w cert_id service_name)) in
  (tr = [] \/
   exists crt, tr = [list_request crt] \/
               tr = [list_request crt; Print already_set]) \/
  (service_name = "DSM Desktop Service" /\
   exists svc crt certs rest,
     reads_registry self w svc crt certs /\
     scan_certs certs service_name <> cert_id /\
     tr = list_request crt
          :: bind_request self svc (scan_certs certs service_name) cert_id
          :: rest /\
     (rest = [] \/ rest = [Print "Certificate set successfully."])).
Proof.
  cbv zeta.
  destruct (app_api_list (session self) !! service_api) as [svc |] eqn:Hsvc.
  2: { rewrite (proj1 (bind_unreadable_registry_raises self w cert_id
                         service_name) Hsvc).
       left. left. reflexivity. }
  destruct (gen_list self !! crt_api) as [crt |] eqn:Hcrt.
  2: { rewrite (proj1 (proj2 (bind_unreadable_registry_raises self w cert_id
                                service_name)) svc Hsvc Hcrt).
       left. left. reflexivity. }
  pose proof (proj2 (proj2 (bind_unreadable_registry_raises self w cert_id
                              service_name)) svc crt Hsvc Hcrt) as Hfail.
  cbv zeta in Hfail.
  destruct (request_data w crt_api (path crt) list_params)
    as [[s | [d |]] | e] eqn:Hout.
  1, 3, 4: rewrite Hfail; left; right; exists crt; left; reflexivity.
  destruct (Registry.certificates d) as [certs |] eqn:Hcerts.
  2: { rewrite (Hfail eq_refl). left. right. exists crt. left. reflexivity. }
  clear Hfail.
  assert (Hreads : reads_registry self w svc crt certs).
  { repeat split; try assumption. rewrite Hout. destruct d. cbn in Hcerts.
    rewrite Hcerts. reflexivity. }
  destruct (String.eqb_spec (scan_certs certs service_name) cert_id) as [E | E].
  { rewrite (bind_run_already_bound self w svc crt certs cert_id service_name
               Hreads E).
    left. right. exists crt. destruct (_debug self); [right | left]; reflexivity. }
  destruct (String.eqb_spec service_name "DSM Desktop Service") as [-> | Hname].
  2: { rewrite (bind_run_unsupported self w svc crt certs cert_id service_name
                  Hreads E Hname).
       left. right. exists crt. left. reflexivity. }
  right. split; [reflexivity |].
  rewrite (bind_run_submit self w svc crt certs cert_id Hreads E).
  set (old := scan_certs certs "DSM Desktop Service") in *.
  destruct (bind_answer self w svc old cert_id) as [r | e0].
  - destruct (conclude_trace self r "Certificate set successfully."
                [list_request crt; bind_request self svc old cert_id])
      as [-> | ->].
    + exists svc, crt, certs, []. auto.
    + exists svc, crt, certs, [Print "Certificate set successfully."]. auto.
  - exists svc, crt, certs, []. auto.
Qed.

(** X8: whatever the session, the appliance and the arguments,
    [set_certificate_for_service] sends at most one request that can change
    the appliance; and it sends one only for the supported service, after
    the registry was read, when the scan found another certificate than the
    requested one: the trace then begins with the list read followed by the
    binding update, and nothing that can change the appliance follows. *)
Theorem bind_writes_at_most_once (self : t) (w : world)
  (cert_id service_name : string) :
  let tr := snd (run (set_certificate_for_service self w cert_id service_name)) in
  (length (write_calls tr) <= 1)%nat /\
  (write_calls tr <> [] ->
   service_name = "DSM Desktop Service" /\
   exists svc crt certs rest,
     reads_registry self w svc crt certs /\
     scan_certs certs service_name <> cert_id /\
     tr = list_request crt
          :: bind_request self svc (scan_certs certs service_name) cert_id
          :: rest /\
     write_calls rest = []).
Proof.
  cbv zeta.
  destruct (bind_trace_cases self w cert_id service_name)
    as [[-> | (crt & [-> | ->])]
       | (Hname & svc & crt & certs & rest & Hreads & Hscan & -> & Hrest)].
  1, 2, 3: apply nothing_written; reflexivity.
  assert (Hquiet : write_calls rest = [])
    by (destruct Hrest as [-> | ->]; reflexivity).
  set (update := bind_request self svc (scan_certs certs service_name) cert_id).
  assert (Hwrites : write_calls (list_request crt :: update :: rest) = [update]).
  { change (list_request crt :: update :: rest)
      with ([list_request crt; update] ++ rest).
    unfold write_calls in *. rewrite filter_app, Hquiet. reflexivity. }
  rewrite Hwrites. split; [cbn; lia |].
  intros _. split; [exact Hname |].
  exists svc, crt, certs, rest. auto.
Qed.

Lemma bind_writes_witness :
  let self := sample_self 7 in
  let w := sample_world sample_certs (sample_response 200 ok_body) in
  let tr := snd (run (set_certificate_for_service self w "222"
                        "DSM Desktop Service")) in
  write_calls tr <> [] /\
  exists svc crt certs rest,
    reads_registry self w svc crt certs /\
    scan_certs certs "DSM Desktop Service" <> "222" /\
    tr = list_request crt
         :: bind_request self svc (scan_certs certs "DSM Desktop Service") "222"
         :: rest /\
    write_calls rest = [].
Proof.
  intros self w tr.
  assert (Hw : write_calls tr <> []) by discriminate.
  split; [exact Hw |].
  exact (proj2 (proj2 (bind_writes_at_most_once self w "222"
                         "DSM Desktop Service") Hw)).
Defined.

(** X9: what [set_certificate_for_service] makes of the response to the
    binding update, case by case. An exception of the POST goes through; a
    body that does not decode raises [JSONDecodeError]; with a status other
    than 200 the call returns the status and the decoded body, whatever it
    says; with status 200 the body is subscripted with ['success'], which
    raises on a body without it, and otherwise the call returns 200 and the
    body, also when ['success'] is false. The update was sent in every
    case. *)
Theorem bind_result_by_response (self : t) (w : world) (svc crt : api_info)
  (certs : list Registry.cert) (cert_id : string) :
  reads_registry self w svc crt certs ->
  scan_certs certs "DSM Desktop Service" <> cert_id ->
  let call := run (set_certificate_for_service self w cert_id
                     "DSM Desktop Service") in
  match bind_answer self w svc (scan_certs certs "DSM Desktop Service") cert_id with
  | Raise e => fst call = Raise e
  | Return r =>
      match json r with
      | None => fst call = Raise JSONDecodeError
      | Some body =>
          if status_code r =? 200 then
            match getitem body "success" with
            | Return _ => fst call = Return (200, body)
            | Raise e => fst call = Raise e
            end
          else fst call = Return (status_code r, body)
      end
  end.
Proof.
  intros Hreads Hscan. cbv zeta.
  rewrite (bind_run_submit self w svc crt certs cert_id Hreads Hscan).
  destruct (bind_answer self w svc _ cert_id) as [r | e]; [| reflexivity].
  rewrite conclude_result.
  destruct (json r) as [body |]; [| reflexivity].
  destruct (Z.eqb_spec (status_code r) 200) as [E | E]; [| reflexivity].
  rewrite E. destruct (getitem body "success"); reflexivity.
Qed.

Lemma bind_result_witness :
  let self := sample_self 7 in
  fst (run (set_certificate_for_service self
              (sample_world sample_certs
                 {| status_code := 502; content := []; json := None |})
              "222" "DSM Desktop Service"))
  = Raise JSONDecodeError /\
  fst (run (set_certificate_for_service self
              (sample_world sample_certs (sample_response 200 failed_body))
              "222" "DSM Desktop Service"))
  = Return (200, failed_body).
Proof.
  intros self. split.
  - refine (bind_result_by_response self
              (sample_world sample_certs
                 {| status_code := 502; content := []; json := None |})
              sample_info sample_info sample_certs "222" _ _).
    + repeat split; reflexivity.
    + discriminate.
  - refine (bind_result_by_response self
              (sample_world sample_certs (sample_response 200 failed_body))
              sample_info sample_info sample_certs "222" _ _).
    + repeat split; reflexivity.
    + discriminate.
Defined.

(** X20: against a registry that shows the service bound to the requested
    certificate, one certificate claiming it or several that agree on the
    ID, a call is a no-op: it returns the already-set outcome and sends
    nothing that can change the appliance. So a second call after a
    successful binding that the registry reflects writes nothing. *)
Theorem bind_again_is_a_no_op (self : t) (w : world) (svc crt : api_info)
  (certs : list Registry.cert) (cert : Registry.cert) (service_name : string) :
  reads_registry self w svc crt certs ->
  In cert certs ->
  serves service_name cert = true ->
  (forall cert', In cert' certs -> serves service_name cert' = true ->
                 Registry.id cert' = Registry.id cert) ->
  let call := run (set_certificate_for_service self w (Registry.id cert)
                     service_name) in
  fst call = Return (200, JStr already_set) /\ write_calls (snd call) = [].
Proof.
  intros Hreads Hin Hserves Hagree. cbv zeta.
  rewrite (bind_run_already_bound self w svc crt certs (Registry.id cert)
             service_name Hreads
             (scan_certs_bound certs service_name cert Hin Hserves Hagree)).
  split; [reflexivity |]. destruct (_debug self); reflexivity.
Qed.

Lemma bind_again_witness :
  let self := sample_self 7 in
  let after := [{| Registry.id := "111"; Registry.services := [ftps] |};
                {| Registry.id := "222"; Registry.services := [desktop] |}] in
  let w := sample_world after (sample_response 200 ok_body) in
  fst (run (set_certificate_for_service self w "222" "DSM Desktop Service"))
  = Return (200, JStr already_set) /\
  write_calls
    (snd (run (set_certificate_for_service self w "222" "DSM Desktop Service")))
  = [].
Proof.
  intros self after w.
  refine (bind_again_is_a_no_op self w sample_info sample_info after
            {| Registry.id := "222"; Registry.services := [desktop] |}
            "DSM Desktop Service" _ _ _ _).
  - repeat split; reflexivity.
  - right. left. reflexivity.
  - reflexivity.
  - intros cert' [<- | [<- | []]]; [discriminate | reflexivity].
Defined.

(** ** What goes on the wire is printable ASCII *)

Lemma all_printable_app (a b : string) :
  all_printable (a +:+ b) = all_printable a && all_printable b.
Proof.
  induction a as [| c a IH]; [reflexivity |].
  change (printable c && all_printable (a +:+ b)
          = printable c && all_printable a && all_printable b).
  rewrite IH. apply andb_assoc.
Qed.

Lemma escape_char_printable (c : ascii) : all_printable (escape_char c) = true.
Proof.
  destruct c as [b0 b1 b2 b3 b4 b5 b6 b7].
  destruct b0, b1, b2, b3, b4, b5, b6, b7; reflexivity.
Qed.

Lemma escape_body_printable (s : string) : all_printable (escape_body s) = true.
Proof.
  induction s as [| c s IH]; [reflexivity |].
  cbn [escape_body]. rewrite all_printable_app, escape_char_printable, IH.
  reflexivity.
Qed.

Lemma encode_printable (s : string) :
  all_printable (encode_basestring_ascii s) = true.
Proof.
  unfold encode_basestring_ascii.
  change (printable dquote
          && all_printable (escape_body s +:+ String dquote "") = true).
  rewrite all_printable_app, escape_body_printable. reflexivity.
Qed.

Lemma bind_settings_printable (version : Z) (old_certid cert_id : string) :
  all_printable (bind_settings (descriptor version) old_certid cert_id) = true.
Proof.
  rewrite bind_settings_shape.
  rewrite !all_printable_app.
  change (all_printable (String dquote ?t))
    with (printable dquote && all_printable t).
  rewrite !all_printable_app, !escape_body_printable, !encode_printable.
  unfold descriptor. destruct (version =? 7); vm_compute; reflexivity.
Qed.

(** X10: for certificate IDs whose characters are code points below 256
    (the strings of this development), control characters and the range
    from 127 to 255 included, every [settings] field that
    [set_certificate_for_service] submits consists of printable ASCII
    characters only (space to tilde): [json.dumps] escapes everything
    else. *)
Theorem bind_settings_are_printable_ascii (self : t) (w : world)
  (cert_id service_name : string) (settings : string) :
  In settings
    (submitted_settings
       (snd (run (set_certificate_for_service self w cert_id service_name)))) ->
  all_printable settings = true.
Proof.
  destruct (bind_trace_cases self w cert_id service_name)
    as [[-> | (crt & [-> | ->])]
       | (Hname & svc & crt & certs & rest & Hreads & Hscan & -> & Hrest)].
  1, 2, 3: intros [].
  destruct Hrest as [-> | ->]; cbn.
  all: intros [<- | []]; apply bind_settings_printable.
Qed.

Lemma bind_settings_ascii_witness :
  let self := sample_self 7 in
  let w := sample_world sample_certs (sample_response 200 ok_body) in
  let id := String "233" (String "010" "x") in
  submitted_settings
    (snd (run (set_certificate_for_service self w id "DSM Desktop Service")))
  = [bind_settings (base_fields ++ dsm7_fields) "111" id] /\
  all_printable (bind_settings (base_fields ++ dsm7_fields) "111" id) = true.
Proof.
  intros self w id.
  assert (Hs : submitted_settings
                 (snd (run (set_certificate_for_service self w id
                              "DSM Desktop Service")))
               = [bind_settings (base_fields ++ dsm7_fields) "111" id])
    by reflexivity.
  split; [exact Hs |].
  apply (bind_settings_are_printable_ascii self w id "DSM Desktop Service").
  rewrite Hs. left. reflexivity.
Defined.

(** X11: the same for the [ids] field of a deletion: for identifiers whose
    characters are code points below 256, the JSON text of the collection
    is printable ASCII. *)
Theorem delete_ids_are_printable_ascii (self : t) (w : world) (crt : api_info)
  (ids : ids_arg) (text : string) :
  gen_list self !! crt_api = Some crt ->
  In (RequestData crt_api (path crt) (delete_params ids))
     (snd (run (delete_certificate self w ids))) /\
  (dict_get (delete_params ids) "ids" = Some text -> all_printable text = true).
Proof.
  intros Hcrt. split.
  - rewrite (delete_run self w crt ids Hcrt). left. reflexivity.
  - unfold delete_params.
    destruct (id_collection ids) as [| x l]; [discriminate |].
    intros [= <-].
    change (JArr (JStr x :: map JStr l)) with (JArr (map JStr (x :: l))).
    rewrite dumps_strings.
    rewrite !all_printable_app.
    assert (Hall : forall l' : list string,
              all_printable (String.concat ", " (map encode_basestring_ascii l'))
              = true).
    { induction l' as [| y [| z l'] IH]; [reflexivity | |].
      - cbn [map String.concat]. apply encode_printable.
      - cbn [map] in *.
        change (String.concat ", " (encode_basestring_ascii y
                  :: encode_basestring_ascii z :: map encode_basestring_ascii l'))
          with (encode_basestring_ascii y +:+ ", "
                +:+ String.concat ", " (encode_basestring_ascii z
                      :: map encode_basestring_ascii l')).
        rewrite !all_printable_app, encode_printable, IH. reflexivity. }
    rewrite Hall. reflexivity.
Qed.

Lemma delete_ids_ascii_witness :
  let self := sample_self 7 in
  let w := sample_world [] (sample_response 200 ok_body) in
  let ids := IdList [String "200" "a"; "b"] in
  all_printable (dumps_default (JArr (map JStr (id_collection ids)))) = true.
Proof.
  intros self w ids.
  apply (delete_ids_are_printable_ascii self w sample_info ids _ eq_refl).
  reflexivity.
Defined.

(** ** Upload: files, failures, the request *)

(** The traces of [upload_cert], on all its paths: nothing; the notice for
    an update, then the files opened and closed around at most one
    request; then at most the line of success. *)
Lemma upload_trace_cases (self : t) (w : world) (serv_key ser_cert : string)
  (ca_cert : option string) (set_as_default : bool)
  (cert_id desc : option string) :
  let tr := snd (run (upload_cert self w serv_key ser_cert ca_cert
                        set_as_default cert_id desc)) in
  let k := abspath w serv_key in
  let c := abspath w ser_cert in
  let verify := verify_cert_enabled (session self) in
  let data := upload_data set_as_default cert_id desc in
  tr = [] \/
  tr = update_notice cert_id \/
  tr = update_notice cert_id ++ [Open k; Close k] \/
  tr = update_notice cert_id ++ [Open k; Open c; Close c; Close k] \/
  (exists info kb cb rest,
     app_api_list (session self) !! transfer_api = Some info /\
     tr = update_notice cert_id
          ++ [Open k; Open c;
              Post (import_url self info) [] data
                [("key", {| filename := k; fileobj := kb; content_type := x509 |});
                 ("cert", {| filename := c; fileobj := cb; content_type := x509 |})]
                verify (token_header self);
              Close c; Close k] ++ rest /\
     (rest = [] \/ rest = [Print "Certificate upload successful."])) \/
  (exists info kb cb a ab rest,
     app_api_list (session self) !! transfer_api = Some info /\
     tr = update_notice cert_id
          ++ [Open k; Open c; Open a;
              Post (import_url self info) [] data
                [("key", {| filename := k; fileobj := kb; content_type := x509 |});
                 ("cert", {| filename := c; fileobj := cb; content_type := x509 |});
                 ("inter_cert",
                  {| filename := a; fileobj := ab; content_type := x509 |})]
                verify (token_header self);
              Close a; Close c; Close k] ++ rest /\
     (rest = [] \/ rest = [Print "Certificate upload successful."])).
Proof.
  cbv zeta.
  unfold update_notice, import_url, upload_data, token_header, transfer_api.
  unfold upload_cert, with_open. call_unfold.
  destruct (app_api_list (session self) !! _) as [info |]; [| left; reflexivity].
  right.
  destruct (opt_truthy cert_id).
  all: destruct (file_bytes w (abspath w serv_key)) as [kb |];
    [| left; reflexivity].
  all: right.
  all: destruct (file_bytes w (abspath w ser_cert)) as [cb |];
    [| left; reflexivity].
  all: right.
  all: destruct ca_cert as [name |];
    [destruct (str_truthy name);
     [destruct (str_truthy (abspath w name));
      [destruct (file_bytes w (abspath w name)) as [ab |];
       [| left; reflexivity] |] |] |].
  all: right.
  all: cbn [dict_set String.eqb Ascii.eqb Bool.eqb].
  all: match goal with
       | |- context [http_post ?a ?b ?c ?d ?e ?f ?g] =>
           destruct (http_post a b c d e f g) as [r | e0]
       end.
  all: try match goal with
           | |- context [conclude ?s ?r ?l ?tr] =>
               destruct (conclude_trace s r l tr) as [-> | ->]
           end.
  all: first
         [ left; exists info, kb, cb, [];
           split; [reflexivity | split; [reflexivity | left; reflexivity]]
         | left; exists info, kb, cb, [Print "Certificate upload successful."];
           split; [reflexivity | split; [reflexivity | right; reflexivity]]
         | right; exists info, kb, cb, (abspath w name), ab, [];
           split; [reflexivity | split; [reflexivity | left; reflexivity]]
         | right; exists info, kb, cb, (abspath w name), ab,
             [Print "Certificate upload successful."];
           split; [reflexivity | split; [reflexivity | right; reflexivity]] ].
Qed.

Ltac upload_paths self w serv_key ser_cert ca_cert set_as_default cert_id desc :=
  destruct (upload_trace_cases self w serv_key ser_cert ca_cert set_as_default
              cert_id desc)
    as [-> | [-> | [-> | [-> |
         [(info & kb & cb & rest & Hinfo & -> & Hrest)
         | (info & kb & cb & a & ab & rest & Hinfo & -> & Hrest)]]]]];
  unfold update_notice; destruct (opt_truthy cert_id);
  try (destruct Hrest as [-> | ->]).

(** X12: on every path of [upload_cert], success, remote failure or a file
    that cannot be opened, each file that was opened has been closed when
    the call ends, the one opened last first. *)
Theorem upload_closes_every_file (self : t) (w : world)
  (serv_key ser_cert : string) (ca_cert : option string)
  (set_as_default : bool) (cert_id desc : option string) :
  open_files
    (snd (run (upload_cert self w serv_key ser_cert ca_cert set_as_default
                 cert_id desc))) []
  = Some [].
Proof.
  upload_paths self w serv_key ser_cert ca_cert set_as_default cert_id desc.
  all: cbn [app open_files]; rewrite ?String.eqb_refl; reflexivity.
Qed.

(** X13: whenever [upload_cert] sends its request, the files of all the
    parts of the request are open at that moment: the request is sent
    inside the [with] blocks, not after them. *)
Theorem upload_sends_with_files_open (self : t) (w : world)
  (serv_key ser_cert : string) (ca_cert : option string)
  (set_as_default : bool) (cert_id desc : option string) :
  parts_open
    (snd (run (upload_cert self w serv_key ser_cert ca_cert set_as_default
                 cert_id desc))) []
  = true.
Proof.
  upload_paths self w serv_key ser_cert ca_cert set_as_default cert_id desc.
  all: cbn [app parts_open forallb existsb filename snd tl];
    rewrite ?String.eqb_refl, ?orb_true_r; reflexivity.
Qed.

(** The two checks tell a good trace from a bad one. *)
Example open_files_rejects_crossed_closes :
  open_files [Open "a"; Open "b"; Close "a"; Close "b"] [] = None /\
  open_files [Open "a"; Open "b"; Close "b"] [] = Some ["a"].
Proof. split; reflexivity. Qed.

Example parts_open_rejects_a_late_request :
  parts_open
    [Open "a"; Close "a";
     Post "u" [] [] [("key", {| filename := "a"; fileobj := [];
                                content_type := x509 |})] true []] []
  = false.
Proof. reflexivity. Qed.

(** X14: when one of the files cannot be opened, [upload_cert] raises what
    [open] raises for the first of them (key, then certificate, then CA
    chain), be it [FileNotFoundError], [IsADirectoryError] or another, and
    sends no request; the files opened before it are closed again. *)
Theorem upload_missing_file_raises (self : t) (w : world) (info : api_info)
  (serv_key ser_cert : string) (ca_cert : option string)
  (set_as_default : bool) (cert_id desc : option string) :
  app_api_list (session self) !! transfer_api = Some info ->
  let call := run (upload_cert self w serv_key ser_cert ca_cert set_as_default
                     cert_id desc) in
  let k := abspath w serv_key in
  let c := abspath w ser_cert in
  (file_bytes w k = None ->
   call = (Raise (open_error w k), update_notice cert_id)) /\
  (forall kb,
     file_bytes w k = Some kb -> file_bytes w c = None ->
     call = (Raise (open_error w c),
             update_notice cert_id ++ [Open k; Close k])) /\
  (forall kb cb name,
     file_bytes w k = Some kb -> file_bytes w c = Some cb ->
     ca_cert = Some name -> name <> "" -> abspath w name <> "" ->
     file_bytes w (abspath w name) = None ->
     call = (Raise (open_error w (abspath w name)),
             update_notice cert_id ++ [Open k; Open c; Close c; Close k])).
Proof.
  intros Hinfo. cbv zeta. unfold transfer_api in Hinfo. unfold update_notice.
  unfold upload_cert, with_open. call_unfold. rewrite Hinfo.
  repeat split.
  - intros Hk. destruct (opt_truthy cert_id); rewrite Hk; reflexivity.
  - intros kb Hk Hc. destruct (opt_truthy cert_id); rewrite Hk, Hc; reflexivity.
  - intros kb cb name Hk Hc -> Hname Habs Ha.
    apply str_truthy_true in Hname, Habs.
    destruct (opt_truthy cert_id); rewrite Hk, Hc, Hname, Habs, Ha; reflexivity.
Qed.

Lemma upload_missing_file_witness :
  let self := sample_self 7 in
  let w := sample_world [] (sample_response 200 ok_body) in
  run (upload_cert self w "server.key" "server.crt" (Some "missing.pem") true
         (Some "abc") None)
  = (Raise (FileNotFoundError "/ssl/missing.pem"),
     [Print "update exist cert: abc";
      Open "/ssl/server.key"; Open "/ssl/server.crt";
      Close "/ssl/server.crt"; Close "/ssl/server.key"]) /\
  run (upload_cert self w "server.key" "private" None true None None)
  = (Raise (IsADirectoryError "/ssl/private"),
     [Open "/ssl/server.key"; Close "/ssl/server.key"]).
Proof.
  intros self w. split.
  - refine (proj2 (proj2 (upload_missing_file_raises self w sample_info
                            "server.key" "server.crt" (Some "missing.pem") true
                            (Some "abc") None eq_refl))
              [Byte.x2d] [Byte.x2d] "missing.pem" _ _ _ _ _ _);
      try reflexivity; discriminate.
  - refine (proj1 (proj2 (upload_missing_file_raises self w sample_info
                            "server.key" "private" None true None None eq_refl))
              [Byte.x2d] _ _); reflexivity.
Defined.

(** X15: what [upload_cert] makes of the response, case by case, once the
    request is out: an exception of the POST goes through; a body that does
    not decode raises [JSONDecodeError]; with a status other than 200 the
    call returns the status and the decoded body; with status 200 the body
    is subscripted with ['success'], which raises on a body without it, and
    otherwise the call returns 200 and the body. *)
Theorem upload_result_by_response (self : t) (w : world) (info : api_info)
  (serv_key ser_cert : string) (ca_cert : option string)
  (set_as_default : bool) (cert_id desc : option string)
  (files : list (string * file_part)) :
  app_api_list (session self) !! transfer_api = Some info ->
  (forall name, abspath w name <> "") ->
  upload_parts w serv_key ser_cert ca_cert = Some files ->
  let call := run (upload_cert self w serv_key ser_cert ca_cert set_as_default
                     cert_id desc) in
  posted_files (snd call) = [files] /\
  match upload_answer self w info set_as_default cert_id desc files with
  | Raise e => fst call = Raise e
  | Return r =>
      match json r with
      | None => fst call = Raise JSONDecodeError
      | Some body =>
          if status_code r =? 200 then
            match getitem body "success" with
            | Return _ => fst call = Return (200, body)
            | Raise e => fst call = Raise e
            end
          else fst call = Return (status_code r, body)
      end
  end.
Proof.
  intros Hinfo Habs Hparts. cbv zeta.
  destruct (upload_run self w info serv_key ser_cert ca_cert set_as_default
              cert_id desc files Hinfo Habs Hparts) as [Hposted ->].
  split; [exact Hposted |].
  destruct (upload_answer self w info set_as_default cert_id desc files)
    as [r | e]; [| reflexivity].
  rewrite conclude_result.
  destruct (json r) as [body |]; [| reflexivity].
  destruct (Z.eqb_spec (status_code r) 200) as [E | E]; [| reflexivity].
  rewrite E. destruct (getitem body "success"); reflexivity.
Qed.

Lemma upload_result_witness :
  let w := sample_world [] (sample_response 200 (JArr [])) in
  (forall name, abspath w name <> "") /\
  fst (run (upload_cert (sample_self 7) w "server.key" "server.crt" None false
              None None))
  = Raise (TypeError "list indices must be integers or slices, not str").
Proof.
  intros w.
  assert (Habs : forall name, abspath w name <> "") by (intros name; discriminate).
  split; [exact Habs |].
  refine (proj2 (upload_result_by_response (sample_self 7) w sample_info
                   "server.key" "server.crt" None false None None _ eq_refl Habs
                   eq_refl)).
Defined.

(** X16: the form fields of every request that [upload_cert] sends: [id] is
    the identifier, or the empty string when none or an empty one was
    given; [desc] likewise; [as_default] is "true" or the empty string,
    never "false". The request goes to the import URL of the endpoint and
    has no query parameters of its own. *)
Theorem upload_form_fields (self : t) (w : world) (serv_key ser_cert : string)
  (ca_cert : option string) (set_as_default : bool)
  (cert_id desc : option string)
  (url : string) (params data : fields) (files : list (string * file_part))
  (verify : bool) (headers : fields) :
  In (Post url params data files verify headers)
     (snd (run (upload_cert self w serv_key ser_cert ca_cert set_as_default
                  cert_id desc))) ->
  params = [] /\
  (exists info, app_api_list (session self) !! transfer_api = Some info /\
                url = import_url self info) /\
  map fst data = ["id"; "desc"; "as_default"] /\
  dict_get data "id"
  = Some (match cert_id with Some s => s | None => "" end) /\
  dict_get data "desc"
  = Some (match desc with Some s => s | None => "" end) /\
  dict_get data "as_default" = Some (if set_as_default then "true" else "").
Proof.
  assert (Hor : forall o, or_empty o = match o with Some s => s | None => "" end).
  { intros [s |]; [| reflexivity]. cbn. unfold str_truthy.
    destruct (String.eqb_spec s ""); [subst |]; reflexivity. }
  assert (Hdata : forall d, d = upload_data set_as_default cert_id desc ->
            map fst d = ["id"; "desc"; "as_default"] /\
            dict_get d "id"
            = Some (match cert_id with Some s => s | None => "" end) /\
            dict_get d "desc"
            = Some (match desc with Some s => s | None => "" end) /\
            dict_get d "as_default"
            = Some (if set_as_default then "true" else "")).
  { intros d ->. unfold upload_data. cbn. rewrite !Hor. auto. }
  upload_paths self w serv_key ser_cert ca_cert set_as_default cert_id desc.
  all: cbn [app In]; intros Hin.
  all: repeat match goal with
              | H : _ \/ _ |- _ => destruct H
              | H : False |- _ => destruct H
              | H : Post _ _ _ _ _ _ = Post _ _ _ _ _ _ |- _ =>
                  injection H as <- <- <- <- <- <-
              | H : _ = Post _ _ _ _ _ _ |- _ => discriminate H
              end.
  all: split; [reflexivity |]; split; [eauto |]; apply Hdata; reflexivity.
Qed.

Lemma upload_form_fields_witness :
  let self := sample_self 7 in
  let w := sample_world [] (sample_response 200 ok_body) in
  let part name := {| filename := name; fileobj := [Byte.x2d];
                      content_type := x509 |} in
  let request :=
    Post (import_url self sample_info) [] (upload_data false (Some "") None)
      [("key", part "/ssl/server.key"); ("cert", part "/ssl/server.crt")]
      false (token_header self) in
  In request
     (snd (run (upload_cert self w "server.key" "server.crt" None false
                  (Some "") None))) /\
  dict_get (upload_data false (Some "") None) "id" = Some "" /\
  dict_get (upload_data false (Some "") None) "as_default" = Some "".
Proof.
  intros self w part request.
  assert (Hin : In request
                  (snd (run (upload_cert self w "server.key" "server.crt" None
                               false (Some "") None))))
    by (cbn; right; right; left; reflexivity).
  split; [exact Hin |].
  destruct (upload_form_fields self w "server.key" "server.crt" None false
              (Some "") None _ _ _ _ _ _ Hin)
    as (_ & _ & _ & Hid & _ & Hdefault).
  split; [exact Hid | exact Hdefault].
Defined.

(** ** The debug flag, the token, the TLS policy *)

Lemma quiet_app (a b : list event) : quiet (a ++ b) = quiet a ++ quiet b.
Proof. apply List.filter_app. Qed.

Lemma conclude_debug (self : t) (debug : bool) (r : response) (line : string)
  (tr tr' : list event) :
  quiet tr = quiet tr' ->
  fst (conclude (set_debug debug self) r line tr) = fst (conclude self r line tr') /\
  quiet (snd (conclude (set_debug debug self) r line tr))
  = quiet (snd (conclude self r line tr')).
Proof.
  intros Hq. split.
  - rewrite !conclude_result. reflexivity.
  - destruct (conclude_trace (set_debug debug self) r line tr) as [-> | ->],
             (conclude_trace self r line tr') as [-> | ->];
      rewrite ?quiet_app, ?Hq; cbn [quiet List.filter is_print negb];
      rewrite ?app_nil_r; reflexivity.
Qed.

(** X17: the debug flag changes nothing but what is printed: with the flag
    set either way, [set_certificate_for_service] and [upload_cert] end in
    the same value or exception and do the same things to the outside, in
    the same order, the printed lines apart. *)
Theorem debug_only_prints (self : t) (w : world) (debug : bool) :
  (forall cert_id service_name,
     let quietly := run (set_certificate_for_service (set_debug debug self) w
                           cert_id service_name) in
     let call := run (set_certificate_for_service self w cert_id service_name) in
     fst quietly = fst call /\ quiet (snd quietly) = quiet (snd call)) /\
  (forall serv_key ser_cert ca_cert set_as_default cert_id desc,
     let quietly := run (upload_cert (set_debug debug self) w serv_key ser_cert
                           ca_cert set_as_default cert_id desc) in
     let call := run (upload_cert self w serv_key ser_cert ca_cert
                        set_as_default cert_id desc) in
     fst quietly = fst call /\ quiet (snd quietly) = quiet (snd call)).
Proof.
  split.
  - intros cert_id service_name. cbv zeta.
    unfold set_certificate_for_service, list_cert, _base_certificate_methods.
    cbn [existsb String.eqb Ascii.eqb Bool.eqb negb orb andb opt_truthy
         ids_truthy].
    call_unfold. cbn [set_debug session gen_list base_url _sid _debug].
    destruct (app_api_list (session self) !! _) as [svc |]; [| auto].
    destruct (gen_list self !! _) as [crt |]; [| auto].
    destruct (request_data w _ _ _) as [[s | [d |]] | e]; auto.
    destruct (Registry.certificates d) as [certs |]; [| auto].
    destruct (String.eqb (scan_certs certs service_name) cert_id).
    { destruct debug, (_debug self); auto. }
    destruct (dict_get servicedatadict service_name) as [base |]; [| auto].
    destruct (_version (session self) =? 7);
      [destruct (dict_get servicedatadictdsm7 service_name) as [dsm7 |];
       [| auto] |].
    all: match goal with
         | |- context [http_post ?a ?b ?c ?d ?e ?f ?g] =>
             destruct (http_post a b c d e f g) as [r | e0]; [| auto]
         end.
    all: apply conclude_debug; reflexivity.
  - intros serv_key ser_cert ca_cert set_as_default cert_id desc. cbv zeta.
    unfold upload_cert, with_open. call_unfold.
    cbn [set_debug session gen_list base_url _sid _debug].
    destruct (app_api_list (session self) !! _) as [info |]; [| auto].
    destruct (opt_truthy cert_id).
    all: destruct (file_bytes w (abspath w serv_key)) as [kb |]; [| auto].
    all: destruct (file_bytes w (abspath w ser_cert)) as [cb |]; [| auto].
    all: destruct ca_cert as [name |];
      [destruct (str_truthy name);
       [destruct (str_truthy (abspath w name));
        [destruct (file_bytes w (abspath w name)) as [ab |]; [| auto] |] |] |].
    all: match goal with
         | |- context [http_post ?a ?b ?c ?d ?e ?f ?g] =>
             destruct (http_post a b c d e f g) as [r | e0]; [| auto]
         end.
    all: apply conclude_debug; reflexivity.
Qed.

(** ** Export: the other paths *)

(** X18: [export_cert] never sends a request that can change the appliance
    and sends at most one request at all. When the endpoint is missing from
    the table it raises [KeyError] before sending anything; an exception of
    the GET goes through to the caller. *)
Theorem export_cert_paths (self : t) (w : world) (cert_id : string) :
  let call := run (export_cert self w cert_id) in
  write_calls (snd call) = [] /\
  (length (snd call) <= 1)%nat /\
  (app_api_list (session self) !! transfer_api = None ->
   call = (Raise (KeyError transfer_api), [])) /\
  (forall info e,
     app_api_list (session self) !! transfer_api = Some info ->
     http_get w (export_url self info cert_id)
       (verify_cert_enabled (session self)) (token_header self) = Raise e ->
     call = (Raise e,
             [Get (export_url self info cert_id)
                (verify_cert_enabled (session self)) (token_header self)])).
Proof.
  cbv zeta. unfold transfer_api, export_url, token_header.
  unfold export_cert. call_unfold.
  destruct (app_api_list (session self) !! _) as [info |].
  - repeat split.
    + destruct (http_get w _ _ _) as [r | e];
        [destruct (status_code r =? 200) |]; reflexivity.
    + destruct (http_get w _ _ _) as [r | e];
        [destruct (status_code r =? 200) |]; cbn; lia.
    + discriminate.
    + intros info' e [= <-] Hget. rewrite Hget. reflexivity.
  - repeat split; try reflexivity; [cbn; lia | discriminate].
Qed.

Lemma export_cert_paths_witness :
  run (export_cert
         {| session := {| app_api_list := ∅; _syno_token := "token";
                          _version := 7; verify_cert_enabled := true |};
            gen_list := ∅; base_url := "https://nas/"; _sid := "sid";
            _debug := false |}
         (sample_world [] (sample_response 200 ok_body)) "abc")
  = (Raise (KeyError transfer_api), []).
Proof.
  apply export_cert_paths. reflexivity.
Defined.

(** X19: every HTTP request that the class sends itself, the POST of an
    upload, the POST of a binding update and the GET of an export, goes out
    with the session's TLS verification setting and with the session's
    token as its only header. *)
Theorem requests_carry_token_and_policy (self : t) (w : world) :
  (forall cert_id service_name,
     Forall (authenticated self)
       (snd (run (set_certificate_for_service self w cert_id service_name)))) /\
  (forall serv_key ser_cert ca_cert set_as_default cert_id desc,
     Forall (authenticated self)
       (snd (run (upload_cert self w serv_key ser_cert ca_cert set_as_default
                    cert_id desc)))) /\
  (forall cert_id,
     Forall (authenticated self) (snd (run (export_cert self w cert_id)))).
Proof.
  repeat split.
  - intros cert_id service_name.
    destruct (bind_trace_cases self w cert_id service_name)
      as [[-> | (crt & [-> | ->])]
         | (Hname & svc & crt & certs & rest & Hreads & Hscan & -> & Hrest)].
    4: destruct Hrest as [-> | ->].
    all: repeat constructor.
  - intros serv_key ser_cert ca_cert set_as_default cert_id desc.
    upload_paths self w serv_key ser_cert ca_cert set_as_default cert_id desc.
    all: cbn [app]; repeat constructor.
  - intros cert_id. unfold export_cert. call_unfold.
    destruct (app_api_list (session self) !! _) as [info |]; [| constructor].
    destruct (http_get w _ _ _) as [r | e];
      [destruct (status_code r =? 200) |]; repeat constructor.
Qed.
